(** * libbt-vendor-intel: the Bluetooth vendor library (bt_vendor.cc)

    A shallow embedding of the vendor library's operations and the
    properties of its bring-up sequence.

    The library is sequential C code whose behaviour is a conversation
    with the kernel: [socket], [bind], [write], [poll], [read], [ioctl],
    [open], [close], the Android [property_set] call and the callbacks of
    the upstream stack.  Each C function becomes a computation in a small
    monad over a [world]:
    - the file-scope variables ([bt_vendor_fd], [hci_interface],
      [rfkill_en], [bt_hwcfg_en], [bt_vendor_callbacks]);
    - the answers the kernel is going to give, in order ([script]);
    - the calls made so far with the value each returned ([trace]).

    A computation ends in [Done] (the C function returned), in [Blocked]
    (the kernel has not answered the pending call: the script is used up)
    or in [Fault] (undefined behaviour: a read outside an object, a call
    through a null pointer).  Log output (ALOGI, ALOGE) is not modelled.
    [bt_vendor_init] reads the property store instead of the kernel and
    is given the store as an argument. *)

From Stdlib Require Import ZArith Lia Bool Ascii String.
From Stdlib Require DecimalString DecimalN DecimalPos.
From stdpp Require Import base list.

Open Scope Z_scope.

(** ** Constants *)

(** Constants that bt_vendor.cc defines itself. *)
Definition BTPROTO_HCI : Z := 1.
Definition HCI_CHANNEL_USER : Z := 1.
Definition HCI_CHANNEL_CONTROL : Z := 3.
Definition HCI_DEV_NONE : Z := 0xffff.

Definition RFKILL_TYPE_BLUETOOTH : Z := 2.
Definition RFKILL_OP_CHANGE_ALL : Z := 3.

Definition MGMT_OP_INDEX_LIST : Z := 0x0003.
Definition MGMT_EV_INDEX_ADDED : Z := 0x0004.
Definition MGMT_EV_COMMAND_COMP : Z := 0x0001.
Definition MGMT_EV_SIZE_MAX : Z := 1024.
Definition MGMT_EV_POLL_TIMEOUT : Z := 3000.

(** [_IOW('H', 202, int)]: direction write (1) in bits 30-31, the size of
    an [int] in bits 16-29, the type character in bits 8-15, the number in
    bits 0-7. *)
Definition IOCTL_HCIDEVDOWN : Z :=
  Z.lor (Z.shiftl 1 30) (Z.lor (Z.shiftl 4 16) (Z.lor (Z.shiftl 72 8) 202)).

(** Constants of the Linux headers the file includes. *)
Definition AF_BLUETOOTH : Z := 31.
Definition PF_BLUETOOTH : Z := AF_BLUETOOTH.
Definition SOCK_RAW : Z := 3.
Definition POLLIN : Z := 1.
Definition O_WRONLY : Z := 1.

(** *** The interface header

    bt_vendor_lib.h, the interface header of the upstream stack, is not
    part of the sources; what bt_vendor.cc uses of it is declared here. *)

(** Modelled from the spec: the four channel slots (command, event,
    ACL-out, ACL-in) of the descriptor array, in the order of the
    header's enumeration. *)
Definition CH_CMD : nat := 0.
(** Modelled from the spec: the event slot. *)
Definition CH_EVT : nat := 1.
(** Modelled from the spec: the ACL-out slot. *)
Definition CH_ACL_OUT : nat := 2.
(** Modelled from the spec: the ACL-in slot. *)
Definition CH_ACL_IN : nat := 3.

(** Modelled from the spec: the two power states a power transition is
    requested with. *)
Definition BT_VND_PWR_OFF : Z := 0.
(** Modelled from the spec: the power-on state. *)
Definition BT_VND_PWR_ON : Z := 1.

(** Modelled from the spec: the binary result code a callback is invoked
    with. *)
Inductive bt_vendor_op_result_t :=
| BT_VND_OP_RESULT_SUCCESS
| BT_VND_OP_RESULT_FAIL.

(** Modelled from the spec: the opcodes of the dispatcher.  These are the
    ones [bt_vendor_op] has a case for; every other value of the
    enumeration is [BT_VND_OP_OTHER]: the switch has no default. *)
Inductive bt_vendor_opcode_t :=
| BT_VND_OP_POWER_CTRL
| BT_VND_OP_FW_CFG
| BT_VND_OP_SCO_CFG
| BT_VND_OP_USERIAL_OPEN
| BT_VND_OP_USERIAL_CLOSE
| BT_VND_OP_GET_LPM_IDLE_TIMEOUT
| BT_VND_OP_LPM_SET_MODE
| BT_VND_OP_LPM_WAKE_SET_STATE
| BT_VND_OP_SET_AUDIO_STATE
| BT_VND_OP_EPILOG
| BT_VND_OP_A2DP_OFFLOAD_START
| BT_VND_OP_A2DP_OFFLOAD_STOP
| BT_VND_OP_OTHER (code : Z).

(** Modelled from the spec: the members of the callback table
    [bt_vendor_callbacks_t] the library calls. *)
Inductive callback :=
| fwcfg_cb
| scocfg_cb
| lpm_cb
| audio_state_cb
| epilog_cb.

(** ** The kernel and the world *)

(** One answer of the environment.  [ret] is the value the call returns,
    [revents] what [poll] stores in [fds[0].revents], [data] the bytes a
    [read] delivers. *)
Record response := Resp { ret : Z; revents : Z; data : list Z }.

Definition answer (r : Z) : response := Resp r 0 [].
Definition poll_answer (r ev : Z) : response := Resp r ev [].
Definition read_answer (bytes : list Z) : response :=
  Resp (Z.of_nat (length bytes)) 0 bytes.

(** The calls that leave the library. *)
Inductive call :=
| CSocket (domain type protocol : Z)
| CBind (fd family dev channel : Z)
| CWrite (fd : Z) (bytes : list Z)
| CPoll (fd events timeout : Z)
| CRead (fd count : Z)
| CClose (fd : Z)
| COpen (path : string) (flags : Z)
| CIoctl (fd request arg : Z)
| CPropertySet (key value : string)
| CCallback (cb : callback) (result : bt_vendor_op_result_t).

Record world := World {
  bt_vendor_callbacks : bool;      (* false: the pointer is NULL *)
  bt_vendor_fd : Z;
  hci_interface : Z;
  rfkill_en : Z;
  bt_hwcfg_en : Z;
  junk : nat -> Z;                 (* what the stack holds under [ev] *)
  script : list response;
  trace : list (call * Z)
}.

Definition set_fd (fd : Z) (w : world) : world :=
  World (bt_vendor_callbacks w) fd (hci_interface w) (rfkill_en w)
        (bt_hwcfg_en w) (junk w) (script w) (trace w).

Definition set_callbacks (b : bool) (w : world) : world :=
  World b (bt_vendor_fd w) (hci_interface w) (rfkill_en w)
        (bt_hwcfg_en w) (junk w) (script w) (trace w).

Definition set_script (s : list response) (w : world) : world :=
  World (bt_vendor_callbacks w) (bt_vendor_fd w) (hci_interface w)
        (rfkill_en w) (bt_hwcfg_en w) (junk w) s (trace w).

Definition log (c : call) (r : Z) (w : world) : world :=
  World (bt_vendor_callbacks w) (bt_vendor_fd w) (hci_interface w)
        (rfkill_en w) (bt_hwcfg_en w) (junk w) (script w)
        (trace w ++ [(c, r)]).

(** ** The monad *)

Inductive result (A : Type) :=
| Done (a : A) (w : world)
| Blocked (c : call) (w : world)
| Fault (w : world).
Arguments Done {A} a w.
Arguments Blocked {A} c w.
Arguments Fault {A} w.

Definition M (A : Type) : Type := world -> result A.

Definition mreturn {A} (a : A) : M A := fun w => Done a w.

Definition mbind' {A B} (m : M A) (k : A -> M B) : M B := fun w =>
  match m w with
  | Done a w' => k a w'
  | Blocked c w' => Blocked c w'
  | Fault w' => Fault w'
  end.

Notation "x <- m ;; k" := (mbind' m (fun x => k))
  (at level 100, m at next level, right associativity).
Notation "m ;;; k" := (mbind' m (fun _ => k))
  (at level 100, right associativity).

Definition get {A} (f : world -> A) : M A := fun w => Done (f w) w.
Definition fault {A} : M A := fun w => Fault w.

(** A call the kernel answers: the next answer of the script, or
    [Blocked] when there is none yet. *)
Definition syscall (c : call) : M response := fun w =>
  match script w with
  | [] => Blocked c w
  | r :: s => Done r (log c (ret r) (set_script s w))
  end.

(** A call whose result the code does not look at. *)
Definition action (c : call) : M unit := fun w => Done tt (log c 0 w).

Definition sys_socket (d t p : Z) : M Z :=
  r <- syscall (CSocket d t p) ;; mreturn (ret r).
Definition sys_bind (fd fam dev chan : Z) : M Z :=
  r <- syscall (CBind fd fam dev chan) ;; mreturn (ret r).
Definition sys_write (fd : Z) (bytes : list Z) : M Z :=
  r <- syscall (CWrite fd bytes) ;; mreturn (ret r).
Definition sys_open (path : string) (flags : Z) : M Z :=
  r <- syscall (COpen path flags) ;; mreturn (ret r).
Definition sys_ioctl (fd req arg : Z) : M Z :=
  r <- syscall (CIoctl fd req arg) ;; mreturn (ret r).
Definition property_set (key value : string) : M Z :=
  r <- syscall (CPropertySet key value) ;; mreturn (ret r).
Definition sys_close (fd : Z) : M unit := action (CClose fd).

(** A call through [bt_vendor_callbacks]: undefined when it is NULL. *)
Definition invoke (cb : callback) (r : bt_vendor_op_result_t) : M unit :=
  fun w => if bt_vendor_callbacks w then action (CCallback cb r) w
           else Fault w.

(** ** bt_vendor_hw_cfg *)

Definition bt_vendor_hw_cfg (stop : Z) : M Z :=
  en <- get bt_hwcfg_en ;;
  if en =? 0 then mreturn 0
  else if negb (stop =? 0) then
    r <- property_set "vendor.bluetooth.hwcfg" "stop" ;;
    if r <? 0 then mreturn 1 else mreturn 0
  else
    r <- property_set "vendor.bluetooth.hwcfg" "start" ;;
    if r <? 0 then mreturn 1 else mreturn 0.

(** ** bt_vendor_rfkill *)

(** [struct rfkill_event], packed: idx (4 bytes), type, op, soft, hard.
    The two flags are [uint8_t]: the int is reduced modulo 256. *)
Definition rfkill_event (type op soft hard : Z) : list Z :=
  [0; 0; 0; 0; type; op; soft mod 256; hard mod 256].

Definition bt_vendor_rfkill (block : Z) : M Z :=
  fd <- sys_open "/dev/rfkill" O_WRONLY ;;
  if fd <? 0 then mreturn (-1)
  else
    len <- sys_write fd
      (rfkill_event RFKILL_TYPE_BLUETOOTH RFKILL_OP_CHANGE_ALL block block) ;;
    if len <? 0 then (sys_close fd ;;; mreturn 1)
    else (sys_close fd ;;; mreturn 0).

(** ** bt_vendor_wait_hcidev *)

(** [struct mgmt_pkt ev], packed: opcode (2 bytes), index (2), len (2),
    data (MGMT_EV_SIZE_MAX).  The object is a list of its bytes; the
    16-bit fields are read in the byte order of the host, little-endian
    as the management protocol is.  A load that leaves the object has no
    value. *)
Definition sizeof_mgmt_pkt : nat := Z.to_nat (6 + MGMT_EV_SIZE_MAX).

Definition load_u8 (buf : list Z) (off : nat) : option Z := buf !! off.

Definition load_u16 (buf : list Z) (off : nat) : option Z :=
  match buf !! off, buf !! S off with
  | Some lo, Some hi => Some (lo + 256 * hi)
  | _, _ => None
  end.

Definition store_u16 (off : nat) (v : Z) (buf : list Z) : list Z :=
  <[S off := v / 256 mod 256]> (<[off := v mod 256]> buf).

(** Offsets of the fields of [ev], and of the fields of the
    [struct mgmt_event_read_index] that [cc] lays over [ev.data]:
    cc_opcode (2 bytes), status (1), num_intf (2), index[] (2 each). *)
Definition off_opcode : nat := 0.
Definition off_index : nat := 2.
Definition off_len : nat := 4.
Definition off_data : nat := 6.
Definition off_cc_opcode : nat := off_data.
Definition off_cc_status : nat := off_data + 2.
Definition off_cc_num_intf : nat := off_data + 3.
Definition off_cc_index (i : nat) : nat := off_data + 5 + 2 * i.

(** [ev] is not initialised: it starts as what the stack holds. *)
Definition uninitialised_ev (w : world) : list Z :=
  map (fun i => junk w i mod 256) (seq 0 sizeof_mgmt_pkt).

(** [read(fd, &ev, sizeof(struct mgmt_pkt))]: a negative answer is an
    error and leaves [ev] alone; otherwise the kernel delivers at most
    [sizeof_mgmt_pkt] bytes over the start of [ev] and returns their
    number.  The bytes behind them keep their old value. *)
Definition sys_read (fd : Z) (buf : list Z) : M (Z * list Z) :=
  r <- syscall (CRead fd (Z.of_nat sizeof_mgmt_pkt)) ;;
  if ret r <? 0 then mreturn (ret r, buf)
  else
    let bytes := take sizeof_mgmt_pkt (map (fun b => b mod 256) (data r)) in
    mreturn (Z.of_nat (length bytes), bytes ++ drop (length bytes) buf).

(** The loop [for (i = 0; i < cc->num_intf; i++)] over [cc->index[i]],
    [n] entries still to visit from entry [i] on: [Some true] when it
    leaves by [goto end], [Some false] when it runs to its end, [None]
    when it loads from outside [ev]. *)
Fixpoint scan_index (n : nat) (i : nat) (buf : list Z) (target : Z)
  : option bool :=
  match n with
  | O => Some false
  | S n' =>
      match load_u16 buf (off_cc_index i) with
      | None => None
      | Some v => if v =? target then Some true
                  else scan_index n' (S i) buf target
      end
  end.

(** How one turn of [while (1)] ends: [continue] (or the end of the
    body), or the loop is left with the value [ret] has then: -1 after a
    [break], 0 at a [goto end]. *)
Inductive ctl :=
| Continue
| Leave (status : Z).

(** What the loop body does with [ev] once the read has returned, for
    the target [hci_interface]; [None] when a load leaves [ev]. *)
Definition examine (ev : list Z) (target : Z) : option ctl :=
  match load_u16 ev off_opcode, load_u16 ev off_index with
  | Some opcode, Some index =>
      if (opcode =? MGMT_EV_INDEX_ADDED) && (index =? target) then
        Some (Leave 0)
      else if opcode =? MGMT_EV_COMMAND_COMP then
        match load_u16 ev off_cc_opcode, load_u8 ev off_cc_status,
              load_u16 ev off_cc_num_intf with
        | Some cc_opcode, Some status, Some num_intf =>
            if negb (cc_opcode =? MGMT_OP_INDEX_LIST) || negb (status =? 0)
            then Some Continue
            else if 0 <? num_intf then
              match scan_index (Z.to_nat num_intf) 0 ev target with
              | Some true => Some (Leave 0)
              | Some false => Some Continue
              | None => None
              end
            else Some Continue
        | _, _, _ => None
        end
      else Some Continue
  | _, _ => None
  end.

Definition wait_iteration (fd : Z) (ev : list Z) : M (ctl * list Z) :=
  p <- syscall (CPoll fd POLLIN MGMT_EV_POLL_TIMEOUT) ;;
  let n := ret p in
  if n =? -1 then mreturn (Leave (-1), ev)
  else if n =? 0 then mreturn (Leave (-1), ev)
  else if negb (Z.land (revents p) POLLIN =? 0) then
    got <- sys_read fd ev ;;
    let '(n, ev) := got in
    if n <? 0 then mreturn (Leave (-1), ev)
    else
      target <- get hci_interface ;;
      match examine ev target with
      | Some c => mreturn (c, ev)
      | None => fault
      end
  else mreturn (Continue, ev).

(** [while (1)]: every turn takes at least the answer to its [poll] from
    the script, so as many turns as the script has answers are enough;
    after them the script is empty and the next [poll] is pending. *)
Fixpoint wait_loop (fuel : nat) (fd : Z) (ev : list Z) : M Z :=
  match fuel with
  | O => fun w => Blocked (CPoll fd POLLIN MGMT_EV_POLL_TIMEOUT) w
  | S fuel' =>
      turn <- wait_iteration fd ev ;;
      let '(c, ev') := turn in
      match c with
      | Continue => wait_loop fuel' fd ev'
      | Leave status => mreturn status
      end
  end.

Definition wait_while (fd : Z) (ev : list Z) : M Z :=
  fuel <- get (fun w => length (script w)) ;;
  wait_loop fuel fd ev.

(** From the write of the request to the label [end:]; the value is the
    one [ret] has there. *)
Definition wait_request (fd : Z) (ev : list Z) : M Z :=
  wrote <- sys_write fd
    (take (sizeof_mgmt_pkt - Z.to_nat MGMT_EV_SIZE_MAX) ev) ;;
  if negb (wrote =? 6) then mreturn (-1)
  else wait_while fd ev.

Definition bt_vendor_wait_hcidev : M Z :=
  fd <- sys_socket PF_BLUETOOTH SOCK_RAW BTPROTO_HCI ;;
  if fd <? 0 then mreturn (-1)
  else
    r <- sys_bind fd AF_BLUETOOTH HCI_DEV_NONE HCI_CHANNEL_CONTROL ;;
    if r <? 0 then (sys_close fd ;;; mreturn (-1))
    else
      ev <- get uninitialised_ev ;;
      let ev := store_u16 off_opcode MGMT_OP_INDEX_LIST ev in
      let ev := store_u16 off_index HCI_DEV_NONE ev in
      let ev := store_u16 off_len 0 ev in
      status <- wait_request fd ev ;;
      (* end: *)
      sys_close fd ;;; mreturn status.

(** ** bt_vendor_open, bt_vendor_close *)

(** What the [void* param] of [bt_vendor_op] points to; the value comes
    back with what the operation stored through the pointer. *)
Inductive param :=
| NullP
| IntP (v : Z)
| FdArrayP (fd_array : list Z)
| U32P (v : Z).

Definition modify (f : world -> world) : M unit := fun w => Done tt (f w).

Definition bt_vendor_open (p : param) : M (Z * param) :=
  fd <- sys_socket AF_BLUETOOTH SOCK_RAW BTPROTO_HCI ;;
  if fd <? 0 then mreturn (-1, p)
  else
    match p with
    | FdArrayP fd_array =>
        if (CH_ACL_IN <? length fd_array)%nat then
          let fd_array := <[CH_CMD := fd]> fd_array in
          let fd_array := <[CH_EVT := fd]> fd_array in
          let fd_array := <[CH_ACL_OUT := fd]> fd_array in
          let fd_array := <[CH_ACL_IN := fd]> fd_array in
          modify (set_fd fd) ;;;
          mreturn (1, FdArrayP fd_array)
        else fault
    | _ => fault
    end.

Definition bt_vendor_close (p : param) : M (Z * param) :=
  fd <- get bt_vendor_fd ;;
  (if negb (fd =? -1) then
     (sys_close fd ;;; modify (set_fd (-1)))
   else mreturn tt) ;;;
  mreturn (0, p).

(** ** bt_vendor_fw_cfg *)

(** The label [failure:]. *)
Definition fw_cfg_failure : M unit := invoke fwcfg_cb BT_VND_OP_RESULT_FAIL.

Definition bt_vendor_fw_cfg : M unit :=
  fd <- get bt_vendor_fd ;;
  if fd =? -1 then fw_cfg_failure
  else
    hci <- get hci_interface ;;
    r <- bt_vendor_wait_hcidev ;;
    if negb (r =? 0) then fw_cfg_failure
    else
      r <- sys_ioctl fd IOCTL_HCIDEVDOWN hci ;;
      if negb (r =? 0) then fw_cfg_failure
      else
        (* addr.hci_dev is an unsigned short *)
        r <- sys_bind fd AF_BLUETOOTH (hci mod 65536) HCI_CHANNEL_USER ;;
        if r <? 0 then fw_cfg_failure
        else invoke fwcfg_cb BT_VND_OP_RESULT_SUCCESS.

(** ** bt_vendor_op, bt_vendor_cleanup *)

Definition is_null (p : param) : bool :=
  match p with NullP => true | _ => false end.

Definition bt_vendor_op (opcode : bt_vendor_opcode_t) (p : param)
  : M (Z * param) :=
  match opcode with
  | BT_VND_OP_POWER_CTRL =>
      en <- get rfkill_en ;;
      if (en =? 0) || is_null p then mreturn (0, p)
      else
        match p with
        | IntP v =>
            if v =? BT_VND_PWR_ON then
              retval <- bt_vendor_rfkill 0 ;;
              if retval =? 0 then
                (retval <- bt_vendor_hw_cfg 0 ;; mreturn (retval, p))
              else mreturn (retval, p)
            else
              retval <- bt_vendor_hw_cfg 1 ;;
              if retval =? 0 then
                (retval <- bt_vendor_rfkill 1 ;; mreturn (retval, p))
              else mreturn (retval, p)
        | _ => fault
        end
  | BT_VND_OP_FW_CFG => bt_vendor_fw_cfg ;;; mreturn (0, p)
  | BT_VND_OP_SCO_CFG =>
      invoke scocfg_cb BT_VND_OP_RESULT_SUCCESS ;;; mreturn (0, p)
  | BT_VND_OP_USERIAL_OPEN => bt_vendor_open p
  | BT_VND_OP_USERIAL_CLOSE => bt_vendor_close p
  | BT_VND_OP_GET_LPM_IDLE_TIMEOUT =>
      match p with
      | U32P _ => mreturn (0, U32P 3000)
      | _ => fault
      end
  | BT_VND_OP_LPM_SET_MODE =>
      invoke lpm_cb BT_VND_OP_RESULT_SUCCESS ;;; mreturn (0, p)
  | BT_VND_OP_LPM_WAKE_SET_STATE => mreturn (0, p)
  | BT_VND_OP_SET_AUDIO_STATE =>
      invoke audio_state_cb BT_VND_OP_RESULT_SUCCESS ;;; mreturn (0, p)
  | BT_VND_OP_EPILOG =>
      invoke epilog_cb BT_VND_OP_RESULT_SUCCESS ;;; mreturn (0, p)
  | BT_VND_OP_A2DP_OFFLOAD_START => mreturn (0, p)
  | BT_VND_OP_A2DP_OFFLOAD_STOP => mreturn (0, p)
  | BT_VND_OP_OTHER _ => mreturn (0, p)
  end.

Definition bt_vendor_cleanup : M unit := modify (set_callbacks false).

(** ** Vocabulary of the properties *)

(** The calls a computation added to the trace. *)
Definition emitted (w w' : world) (evs : list (call * Z)) : Prop :=
  trace w' = trace w ++ evs.

Definition is_callback (c : call) : bool :=
  match c with CCallback _ _ => true | _ => false end.

Definition is_close (c : call) : bool :=
  match c with CClose _ => true | _ => false end.

Definition is_rfkill_call (c : call) : bool :=
  match c with
  | COpen _ _ | CWrite _ _ | CClose _ => true
  | _ => false
  end.

Definition is_hook_call (c : call) : bool :=
  match c with CPropertySet _ _ => true | _ => false end.

(** The budget of a [poll] call is the constant of the source. *)
Definition poll_budget_ok (c : call) : Prop :=
  match c with
  | CPoll _ _ timeout => timeout = MGMT_EV_POLL_TIMEOUT
  | _ => True
  end.


(** No step reported a failure: no call returned a negative value. *)
Definition no_failure (evs : list (call * Z)) : Prop :=
  Forall (fun e => 0 <= snd e) evs.

(** *** Management events, as the kernel sends them

    What the claims about the index watcher call an index-added
    notification and a command-complete response, with the layout of the
    management protocol (6-byte header, then the payload). *)
Inductive mgmt_event :=
| IndexAdded (index : Z)
| IndexList (index status : Z) (indices : list Z)
| CommandComplete (index cc_opcode status : Z) (rest : list Z)
| OtherEvent (opcode index : Z) (payload : list Z).

Definition le16 (v : Z) : list Z := [v mod 256; v / 256 mod 256].

Definition mgmt_packet (opcode index : Z) (payload : list Z) : list Z :=
  le16 opcode ++ le16 index ++ le16 (Z.of_nat (length payload)) ++ payload.

Definition encode (e : mgmt_event) : list Z :=
  match e with
  | IndexAdded index => mgmt_packet MGMT_EV_INDEX_ADDED index []
  | IndexList index status indices =>
      mgmt_packet MGMT_EV_COMMAND_COMP index
        (le16 MGMT_OP_INDEX_LIST ++ [status mod 256]
         ++ le16 (Z.of_nat (length indices))
         ++ concat (map le16 indices))
  | CommandComplete index cc_opcode status rest =>
      mgmt_packet MGMT_EV_COMMAND_COMP index
        (le16 cc_opcode ++ [status mod 256] ++ map (fun b => b mod 256) rest)
  | OtherEvent opcode index payload =>
      mgmt_packet opcode index (map (fun b => b mod 256) payload)
  end.

Definition u8 (v : Z) : Prop := 0 <= v < 256.
Definition u16 (v : Z) : Prop := 0 <= v < 65536.

(** A well-formed event: every field fits its width, the packet fits
    [struct mgmt_pkt], and the constructor is the one of its opcodes. *)
Definition wf_event (e : mgmt_event) : Prop :=
  (length (encode e) <= sizeof_mgmt_pkt)%nat /\
  match e with
  | IndexAdded index => u16 index
  | IndexList index status indices =>
      u16 index /\ u8 status /\ Forall u16 indices
  | CommandComplete index cc_opcode status rest =>
      u16 index /\ u16 cc_opcode /\ u8 status /\
      (cc_opcode <> MGMT_OP_INDEX_LIST \/ status <> 0)
  | OtherEvent opcode index payload =>
      u16 opcode /\ u16 index /\
      opcode <> MGMT_EV_INDEX_ADDED /\ opcode <> MGMT_EV_COMMAND_COMP
  end.

(** The event tells that the target index is registered. *)
Definition reports (target : Z) (e : mgmt_event) : bool :=
  match e with
  | IndexAdded index => index =? target
  | IndexList _ status indices =>
      (status =? 0) && existsb (fun i => i =? target) indices
  | _ => false
  end.

(** One wait cycle of the watcher, as the kernel decides it. *)
Inductive cycle :=
| PollError
| PollTimeout
| NotReadable (revents : Z)
| ReadError
| Event (e : mgmt_event).

Definition wf_cycle (c : cycle) : Prop :=
  match c with
  | NotReadable revents => Z.land revents POLLIN = 0
  | Event e => wf_event e
  | _ => True
  end.

Definition answers (c : cycle) : list response :=
  match c with
  | PollError => [poll_answer (-1) 0]
  | PollTimeout => [poll_answer 0 0]
  | NotReadable revents => [poll_answer 1 revents]
  | ReadError => [poll_answer 1 POLLIN; answer (-1)]
  | Event e => [poll_answer 1 POLLIN; read_answer (encode e)]
  end.

Definition answers_of (cs : list cycle) : list response :=
  concat (map answers cs).

(** A cycle after which the watcher polls again. *)
Definition ignored (target : Z) (c : cycle) : bool :=
  match c with
  | NotReadable _ => true
  | Event e => negb (reports target e)
  | _ => false
  end.

(** The watcher as the specification words it (4.2, steps 3 to 5):
    [None] while no cycle has decided. *)
Inductive outcome :=
| Success
| Timeout
| PollFailed
| ReadFailed.

Fixpoint wait_for_index (target : Z) (cs : list cycle) : option outcome :=
  match cs with
  | [] => None
  | PollError :: _ => Some PollFailed
  | PollTimeout :: _ => Some Timeout
  | ReadError :: _ => Some ReadFailed
  | NotReadable _ :: cs' => wait_for_index target cs'
  | Event e :: cs' =>
      if reports target e then Some Success else wait_for_index target cs'
  end.

Definition status_of (o : outcome) : Z :=
  match o with Success => 0 | _ => -1 end.

(** *** Computations that only make calls of one kind

    [quiet P w w']: from [w] to [w'] the file-scope variables did not
    change, answers were only taken from the front of the script, and
    every call added to the trace satisfies [P].  [keeps P m]: however
    [m] ends it was quiet, the call it may be blocked in satisfies [P],
    and it is only ever blocked with the script used up. *)
Definition same_globals (w w' : world) : Prop :=
  bt_vendor_callbacks w' = bt_vendor_callbacks w /\
  bt_vendor_fd w' = bt_vendor_fd w /\
  hci_interface w' = hci_interface w /\
  rfkill_en w' = rfkill_en w /\
  bt_hwcfg_en w' = bt_hwcfg_en w.

Definition quiet (P : call -> Prop) (w w' : world) : Prop :=
  same_globals w w' /\
  (length (script w') <= length (script w))%nat /\
  exists evs, emitted w w' evs /\ Forall (fun e => P (fst e)) evs.

Definition keeps (P : call -> Prop) {A} (m : M A) : Prop :=
  forall w,
    match m w with
    | Done _ w' => quiet P w w'
    | Blocked c w' => quiet P w w' /\ P c /\ script w' = []
    | Fault w' => quiet P w w'
    end.

Definition not_callback (c : call) : Prop := is_callback c = false.
Definition not_close (c : call) : Prop := is_close c = false.

(** The hook request of [bt_vendor_hw_cfg]. *)
Definition hook_request (stop : Z) : call :=
  CPropertySet "vendor.bluetooth.hwcfg"
    (if negb (stop =? 0) then "stop" else "start").

(** The value a computation returned, the call it is blocked in, whether
    it ran into undefined behaviour. *)
Definition returned {A} (r : result A) : option A :=
  match r with Done a _ => Some a | _ => None end.

Definition blocked_in {A} (r : result A) : option call :=
  match r with Blocked c _ => Some c | _ => None end.

Definition faulted {A} (r : result A) : bool :=
  match r with Fault _ => true | _ => false end.

(** A command-complete event the watcher has to skip: another
    sub-opcode, or a non-zero status. *)
Definition mismatched (e : mgmt_event) : Prop :=
  match e with
  | CommandComplete _ _ _ _ => True
  | IndexList _ status _ => status <> 0
  | _ => False
  end.

(** The world a computation stops in. *)
Definition final {A} (r : result A) : world :=
  match r with Done _ w | Blocked _ w | Fault w => w end.

(** Powering on: the radio unblock [bt_vendor_rfkill 0] runs from [w]
    and returns [s1]; its calls [radio] come first, the calls [hook] of
    the hook start after them; a non-zero [s1] is the status of the
    transition and leaves [hook] empty. *)
Definition unblock_then_start (w w' : world) (status : Z) : Prop :=
  exists s1 w1 radio hook,
    bt_vendor_rfkill 0 w = Done s1 w1 /\
    emitted w w1 radio /\ emitted w1 w' hook /\
    emitted w w' (radio ++ hook) /\
    Forall (fun e => is_rfkill_call (fst e) = true) radio /\
    Forall (fun e => fst e = hook_request 0) hook /\
    (s1 <> 0 -> status = s1 /\ hook = []) /\
    (s1 = 0 -> bt_vendor_hw_cfg 0 w1 = Done status w').

(** Powering off: the hook stop [bt_vendor_hw_cfg 1] runs from [w] and
    returns [s1]; its calls [hook] come first, the calls [radio] of the
    radio block after them; a non-zero [s1] is the status of the
    transition and leaves [radio] empty. *)
Definition stop_then_block (w w' : world) (status : Z) : Prop :=
  exists s1 w1 hook radio,
    bt_vendor_hw_cfg 1 w = Done s1 w1 /\
    emitted w w1 hook /\ emitted w1 w' radio /\
    emitted w w' (hook ++ radio) /\
    Forall (fun e => fst e = hook_request 1) hook /\
    Forall (fun e => is_rfkill_call (fst e) = true) radio /\
    (s1 <> 0 -> status = s1 /\ radio = []) /\
    (s1 = 0 -> bt_vendor_rfkill 1 w1 = Done status w').

(** A world to run the operations in: callbacks registered, descriptor 5
    open, interface hci0, both feature flags set, a zeroed stack. *)
Definition sample_world (s : list response) : world :=
  World true 5 0 1 1 (fun _ => 0) s [].

(** The opcodes whose case invokes a callback of the upstream stack. *)
Definition calls_back (opcode : bt_vendor_opcode_t) : bool :=
  match opcode with
  | BT_VND_OP_FW_CFG | BT_VND_OP_SCO_CFG | BT_VND_OP_LPM_SET_MODE
  | BT_VND_OP_SET_AUDIO_STATE | BT_VND_OP_EPILOG => true
  | _ => false
  end.

(** The world of the first end-to-end scenario: interface 1, both
    features off, descriptor 5 open; the kernel reports index 1 as added
    and lets the ioctl and the bind succeed. *)
Definition scenario_world : world :=
  World true 5 1 0 0 (fun _ => 0)
    (answer 7 :: answer 0 :: answer 6
       :: answers_of [Event (IndexAdded 1)] ++ [answer 0; answer 0]) [].

(** ** bt_vendor_init *)

(** *** What the initialisation calls

    [property_get], [strtol] and [atoi] are not part of bt_vendor.cc;
    they are given here by their contracts. *)

(** The property store of the system, as it is when the library is
    initialised: the value of each property that is set. *)
Definition properties : Type := string -> option string.

(** [property_get(key, value, default_value)] of libcutils: [value]
    receives the property when it is set and not empty, else the default
    when one is given, else the empty string; the result is the length
    of what [value] received. *)
Definition property_get (props : properties) (key : string)
  (default_value : option string) : Z * string :=
  let fallback := match default_value with Some d => d | None => EmptyString end in
  let value :=
    match props key with
    | Some v => if (String.length v =? 0)%nat then fallback else v
    | None => fallback
    end in
  (Z.of_nat (String.length value), value).

(** The white space [strtol] skips: space, \t, \n, \v, \f, \r. *)
Definition is_space (c : ascii) : bool :=
  let n := nat_of_ascii c in
  ((n =? 32) || ((9 <=? n) && (n <=? 13)))%nat.

Fixpoint skip_space (s : string) : string :=
  match s with
  | String c s' => if is_space c then skip_space s' else s
  | EmptyString => s
  end.

Definition digit (c : ascii) : option Z :=
  let n := Z.of_nat (nat_of_ascii c) in
  if (48 <=? n) && (n <=? 57) then Some (n - 48) else None.

(** The value of the decimal digits at the start of [s], after [acc]. *)
Fixpoint digits (acc : Z) (s : string) : Z :=
  match s with
  | String c s' =>
      match digit c with
      | Some d => digits (10 * acc + d) s'
      | None => acc
      end
  | EmptyString => acc
  end.

(** [strtol(s, NULL, 10)] for a [long] of [long_bits] bits: white space,
    an optional sign, decimal digits; what follows is ignored, and no
    digit at all gives 0.  A value that does not fit is clamped, and the
    second component tells that [errno] was set (to ERANGE). *)
Definition strtol (long_bits : Z) (s : string) : Z * bool :=
  let s := skip_space s in
  let '(negative, s) :=
    match s with
    | String "-" s' => (true, s')
    | String "+" s' => (false, s')
    | _ => (false, s)
    end in
  let v := digits 0 s in
  let v := if negative then - v else v in
  let long_max := 2 ^ (long_bits - 1) - 1 in
  let long_min := - 2 ^ (long_bits - 1) in
  if long_max <? v then (long_max, true)
  else if v <? long_min then (long_min, true)
  else (v, false).

(** The conversion of a [long] to [int]: the low 32 bits, signed. *)
Definition int_of_long (v : Z) : Z := (v + 2 ^ 31) mod 2 ^ 32 - 2 ^ 31.

(** [atoi(s)]: [(int) strtol(s, NULL, 10)]. *)
Definition atoi (long_bits : Z) (s : string) : Z :=
  int_of_long (fst (strtol long_bits s)).

Definition set_hci_interface (v : Z) (w : world) : world :=
  World (bt_vendor_callbacks w) (bt_vendor_fd w) v (rfkill_en w)
        (bt_hwcfg_en w) (junk w) (script w) (trace w).

Definition set_rfkill_en (v : Z) (w : world) : world :=
  World (bt_vendor_callbacks w) (bt_vendor_fd w) (hci_interface w) v
        (bt_hwcfg_en w) (junk w) (script w) (trace w).

Definition set_bt_hwcfg_en (v : Z) (w : world) : world :=
  World (bt_vendor_callbacks w) (bt_vendor_fd w) (hci_interface w)
        (rfkill_en w) v (junk w) (script w) (trace w).

(** The interface selector, lines 105 to 110: [errno] is cleared, the
    number is read with [strtol] behind an "hci" prefix when the value
    has one and from the start of the value when it has none, and a set
    [errno] makes the interface 0. *)
Definition parse_interface (long_bits : Z) (prop_value : string) : Z :=
  let parsed :=
    match prop_value with
    | String "h" (String "c" (String "i" number)) => strtol long_bits number
    | _ => strtol long_bits prop_value
    end in
  if snd parsed then 0 else int_of_long (fst parsed).

(** [bt_vendor_init(p_cb, local_bdaddr)], on a platform whose [long] has
    [long_bits] bits and with the property store [props].  [p_cb] tells
    whether the callback table pointer is non-null; [local_bdaddr] is
    the bytes readable at the address pointer (none for a null pointer),
    of which six are copied.  The value is the status and what the call
    stored in [bt_vendor_local_bdaddr], a variable no other function
    reads. *)
Definition bt_vendor_init (long_bits : Z) (props : properties)
  (p_cb : bool) (local_bdaddr : list Z) : M (Z * option (list Z)) :=
  if negb p_cb then mreturn (-1, None)
  else
    modify (set_callbacks true) ;;;
    if (length local_bdaddr <? 6)%nat then fault
    else
      let bt_vendor_local_bdaddr := take 6 local_bdaddr in
      let prop_value :=
        snd (property_get props "bluetooth.interface" (Some "0"%string)) in
      modify (set_hci_interface (parse_interface long_bits prop_value)) ;;;
      let prop_value :=
        snd (property_get props "bluetooth.rfkill" (Some "0"%string)) in
      modify (set_rfkill_en (atoi long_bits prop_value)) ;;;
      let n := fst (property_get props "vendor.bluetooth.hwcfg" None) in
      modify (set_bt_hwcfg_en (if 0 <? n then 1 else 0)) ;;;
      mreturn (0, Some bt_vendor_local_bdaddr).

(** The decimal numeral of [n]. *)
Definition decimal (n : N) : string :=
  DecimalString.NilEmpty.string_of_uint (N.to_uint n).

(** [s] does not go on with a decimal digit. *)
Definition ends_number (s : string) : Prop :=
  match s with
  | String c _ => digit c = None
  | EmptyString => True
  end.

(** The property is not set, or set to the empty string. *)
Definition unset (props : properties) (key : string) : Prop :=
  props key = None \/ props key = Some EmptyString.

(** A property store: interface "hci3:1", radio-kill "1", the hook
    property set to "stop". *)
Definition sample_props : properties := fun key =>
  if String.eqb key "bluetooth.interface" then Some "hci3:1"%string
  else if String.eqb key "bluetooth.rfkill" then Some "1"%string
  else if String.eqb key "vendor.bluetooth.hwcfg" then Some "stop"%string
  else None.

(** The opcodes whose case touches neither the kernel nor the file-scope
    variables: every one but power control, firmware config and the
    channel open and close. *)
Definition kernel_free (opcode : bt_vendor_opcode_t) : bool :=
  match opcode with
  | BT_VND_OP_POWER_CTRL | BT_VND_OP_FW_CFG
  | BT_VND_OP_USERIAL_OPEN | BT_VND_OP_USERIAL_CLOSE => false
  | _ => true
  end.


(** * Properties *)

(** ** Stepping through a computation *)

Lemma syscall_cons (c : call) (r : response) (s : list response) (w : world) :
  script w = r :: s ->
  syscall c w = Done r (log c (ret r) (set_script s w)).
Proof. intros H. unfold syscall. now rewrite H. Qed.

Lemma syscall_nil (c : call) (w : world) :
  script w = [] -> syscall c w = Blocked c w.
Proof. intros H. unfold syscall. now rewrite H. Qed.

Lemma bind_done {A B} (m : M A) (k : A -> M B) (w w' : world) (a : A) :
  m w = Done a w' -> mbind' m k w = k a w'.
Proof. intros H. unfold mbind'. now rewrite H. Qed.

Lemma bind_inv {A B} (m : M A) (k : A -> M B) (w w2 : world) (b : B) :
  mbind' m k w = Done b w2 ->
  exists a w1, m w = Done a w1 /\ k a w1 = Done b w2.
Proof.
  unfold mbind'. destruct (m w) as [a w1| |]; try discriminate.
  intros H. now exists a, w1.
Qed.

(** ** The radio-kill switch *)

(** C7. After a successful open of the kill-switch device the operation
    writes exactly one record, of type Bluetooth and operation
    change-all, whose soft and hard flags are both 1 when asked to block
    and both 0 when asked to unblock; it closes the descriptor it opened
    as its last call whether the write succeeds or fails, and a failed
    write makes it return a non-zero status. *)
Theorem bt_vendor_rfkill_record
  (w : world) (opened wrote : response) (rest : list response)
  (block : bool) :
  script w = opened :: wrote :: rest ->
  0 <= ret opened ->
  exists status w',
    bt_vendor_rfkill (Z.b2z block) w = Done status w' /\
    emitted w w'
      [ (COpen "/dev/rfkill" O_WRONLY, ret opened);
        (CWrite (ret opened)
           [0; 0; 0; 0; RFKILL_TYPE_BLUETOOTH; RFKILL_OP_CHANGE_ALL;
            Z.b2z block; Z.b2z block], ret wrote);
        (CClose (ret opened), 0) ] /\
    (ret wrote < 0 -> status <> 0) /\
    (0 <= ret wrote -> status = 0).
Proof.
  intros kernel open_ok.
  unfold bt_vendor_rfkill, sys_open, sys_write, sys_close, action,
    mbind', mreturn, syscall, emitted, rfkill_event.
  rewrite kernel; cbn.
  destruct (Z.ltb_spec (ret opened) 0) as [Hneg|_]; [lia|].
  cbn.
  replace (Z.b2z block mod 256) with (Z.b2z block) by now destruct block.
  destruct (Z.ltb_spec (ret wrote) 0) as [Hw|Hw]; cbn;
    eexists _, _; (split; [reflexivity|]); cbn;
    rewrite <- !app_assoc; cbn; (split; [reflexivity|]); split; lia.
Qed.

Lemma bt_vendor_rfkill_record_witness :
  exists status w',
    bt_vendor_rfkill (Z.b2z true)
      (sample_world [answer 7; answer (-1)]) = Done status w' /\
    emitted (sample_world [answer 7; answer (-1)]) w'
      [ (COpen "/dev/rfkill" O_WRONLY, 7);
        (CWrite 7 [0; 0; 0; 0; RFKILL_TYPE_BLUETOOTH; RFKILL_OP_CHANGE_ALL;
                   1; 1], -1);
        (CClose 7, 0) ] /\
    (-1 < 0 -> status <> 0) /\
    (0 <= -1 -> status = 0).
Proof.
  apply (bt_vendor_rfkill_record
           (sample_world [answer 7; answer (-1)])
           (answer 7) (answer (-1)) [] true).
  - reflexivity.
  - simpl; lia.
Defined.

(** What a returned radio-kill operation did: only calls on the
    kill-switch device, and a non-zero status only after a call that
    failed. *)
Lemma bt_vendor_rfkill_inv (block : Z) (w w' : world) (status : Z) :
  bt_vendor_rfkill block w = Done status w' ->
  exists evs,
    emitted w w' evs /\
    Forall (fun e => is_rfkill_call (fst e) = true) evs /\
    (status = 0 \/ ~ no_failure evs).
Proof.
  unfold bt_vendor_rfkill, sys_open, sys_write, sys_close, action,
    mbind', mreturn, syscall, emitted, no_failure.
  destruct (script w) as [|r1 s1]; [discriminate|]; cbn.
  destruct (Z.ltb_spec (ret r1) 0) as [H1|H1]; cbn.
  - intros [= <- <-]. eexists; cbn; split; [reflexivity|].
    split; [repeat constructor|]. right. intros HF.
    apply Forall_inv in HF; cbn in HF; lia.
  - destruct s1 as [|r2 s2]; [discriminate|]; cbn.
    destruct (Z.ltb_spec (ret r2) 0) as [H2|H2]; cbn;
      intros [= <- <-]; eexists; cbn; rewrite <- !app_assoc; cbn;
      (split; [reflexivity|]); (split; [repeat constructor|]).
    + right. intros HF. apply Forall_inv_tail, Forall_inv in HF.
      cbn in HF; lia.
    + now left.
Qed.

(** The three ways the hardware-config hook goes. *)
Lemma bt_vendor_hw_cfg_cases (stop : Z) (w : world) :
  (bt_hwcfg_en w = 0 /\ bt_vendor_hw_cfg stop w = Done 0 w) \/
  (bt_hwcfg_en w <> 0 /\ script w = [] /\
   bt_vendor_hw_cfg stop w = Blocked (hook_request stop) w) \/
  (bt_hwcfg_en w <> 0 /\
   exists r s, script w = r :: s /\
     bt_vendor_hw_cfg stop w =
       Done (if ret r <? 0 then 1 else 0)
            (log (hook_request stop) (ret r) (set_script s w))).
Proof.
  unfold bt_vendor_hw_cfg, property_set, get, mbind', mreturn, syscall,
    hook_request.
  destruct (Z.eqb_spec (bt_hwcfg_en w) 0) as [He|He]; [now left|right].
  destruct (stop =? 0); cbn;
    (destruct (script w) as [|r s]; [left|right]; (split; [exact He|]);
     [ now split
     | exists r, s; split; [reflexivity|]; now destruct (ret r <? 0) ]).
Qed.

Lemma bt_vendor_hw_cfg_inv (stop : Z) (w w' : world) (status : Z) :
  bt_vendor_hw_cfg stop w = Done status w' ->
  exists evs,
    emitted w w' evs /\
    Forall (fun e => fst e = hook_request stop) evs /\
    (status = 0 \/ ~ no_failure evs).
Proof.
  intros H.
  destruct (bt_vendor_hw_cfg_cases stop w)
    as [[_ E]|[(_ & _ & E)|(_ & r & s & _ & E)]];
    rewrite E in H; try discriminate; injection H as <- <-.
  - exists []. unfold emitted. rewrite app_nil_r. auto.
  - exists [(hook_request stop, ret r)]. unfold emitted, no_failure; cbn.
    split; [reflexivity|]. split; [repeat constructor|].
    destruct (Z.ltb_spec (ret r) 0); [right|now left].
    intros HF. apply Forall_inv in HF; cbn in HF; lia.
Qed.

Lemma emitted_app (w w1 w2 : world) (l1 l2 : list (call * Z)) :
  emitted w w1 l1 -> emitted w1 w2 l2 -> emitted w w2 (l1 ++ l2).
Proof. unfold emitted. intros H1 H2. now rewrite H2, H1, app_assoc. Qed.

Lemma emitted_inj (w w' : world) (l1 l2 : list (call * Z)) :
  emitted w w' l1 -> emitted w w' l2 -> l1 = l2.
Proof.
  unfold emitted. intros H1 H2. rewrite H1 in H2.
  now apply app_inv_head in H2.
Qed.

Lemma emitted_refl (w : world) : emitted w w [].
Proof. unfold emitted. now rewrite app_nil_r. Qed.

(** ** Power transitions *)

(** C5. A power transition the dispatcher handles (radio-kill feature
    on, parameter present) that returns: powering on runs the radio
    unblock first and the hook start after it, powering off runs the hook
    stop first and the radio block after it; when the first step returns
    a non-zero status that status is the result and the second step makes
    no call at all. *)
Theorem power_ctrl_order
  (w w' : world) (v status : Z) (p' : param) :
  rfkill_en w <> 0 ->
  bt_vendor_op BT_VND_OP_POWER_CTRL (IntP v) w = Done (status, p') w' ->
  if v =? BT_VND_PWR_ON then unblock_then_start w w' status
  else stop_then_block w w' status.
Proof.
  intros Hen. unfold bt_vendor_op, get, unblock_then_start, stop_then_block.
  unfold mbind' at 1.
  destruct (Z.eqb_spec (rfkill_en w) 0) as [E|_]; [contradiction|]. cbn.
  destruct (v =? BT_VND_PWR_ON).
  - intros H. apply bind_inv in H as (s1 & w1 & H1 & H).
    destruct (bt_vendor_rfkill_inv _ _ _ _ H1) as (radio & Hr & Fr & _).
    destruct (Z.eqb_spec s1 0) as [->|Hs1].
    + apply bind_inv in H as (s2 & w2 & H2 & H).
      injection H as <- <- <-.
      destruct (bt_vendor_hw_cfg_inv _ _ _ _ H2) as (hook & Hh & Fh & _).
      exists 0, w1, radio, hook.
      repeat split; eauto using emitted_app; congruence.
    + injection H as <- <- <-.
      exists s1, w1, radio, [].
      repeat split; eauto using emitted_refl; try congruence.
      rewrite app_nil_r. exact Hr.
  - intros H. apply bind_inv in H as (s1 & w1 & H1 & H).
    destruct (bt_vendor_hw_cfg_inv _ _ _ _ H1) as (hook & Hh & Fh & _).
    destruct (Z.eqb_spec s1 0) as [->|Hs1].
    + apply bind_inv in H as (s2 & w2 & H2 & H).
      injection H as <- <- <-.
      destruct (bt_vendor_rfkill_inv _ _ _ _ H2) as (radio & Hr & Fr & _).
      exists 0, w1, hook, radio.
      repeat split; eauto using emitted_app; congruence.
    + injection H as <- <- <-.
      exists s1, w1, hook, [].
      repeat split; eauto using emitted_refl; try congruence.
      rewrite app_nil_r. exact Hh.
Qed.

Lemma power_ctrl_order_witness :
  unblock_then_start
    (sample_world [answer 7; answer (-1); answer 0])
    (final (bt_vendor_op BT_VND_OP_POWER_CTRL (IntP BT_VND_PWR_ON)
              (sample_world [answer 7; answer (-1); answer 0])))
    1.
Proof.
  apply (power_ctrl_order
           (sample_world [answer 7; answer (-1); answer 0])
           (final (bt_vendor_op BT_VND_OP_POWER_CTRL (IntP BT_VND_PWR_ON)
                     (sample_world [answer 7; answer (-1); answer 0])))
           BT_VND_PWR_ON 1 (IntP BT_VND_PWR_ON)).
  - simpl. lia.
  - reflexivity.
Defined.

(** C9. With the radio-kill feature off, or with a null parameter, the
    power-control opcode returns 0 and changes nothing: no call is made
    (no radio-kill write, no hook request), whatever the hook flag. *)
Theorem power_ctrl_gated_off (w : world) (p : param) :
  rfkill_en w = 0 \/ p = NullP ->
  bt_vendor_op BT_VND_OP_POWER_CTRL p w = Done (0, p) w.
Proof.
  intros [H| ->]; unfold bt_vendor_op, get, mbind', mreturn.
  - now rewrite H.
  - now rewrite orb_true_r.
Qed.

Lemma power_ctrl_gated_off_witness :
  bt_vendor_op BT_VND_OP_POWER_CTRL (IntP BT_VND_PWR_ON)
    (World true 5 0 0 1 (fun _ => 0) [answer 7; answer 8; answer 0] [])
  = Done (0, IntP BT_VND_PWR_ON)
      (World true 5 0 0 1 (fun _ => 0) [answer 7; answer 8; answer 0] []).
Proof.
  apply (power_ctrl_gated_off
           (World true 5 0 0 1 (fun _ => 0) [answer 7; answer 8; answer 0] [])
           (IntP BT_VND_PWR_ON)).
  left. reflexivity.
Defined.

(** ** Opening the channel *)

(** C10. A channel-open call that succeeds while a descriptor is already
    recorded stores the new descriptor in [bt_vendor_fd] and in all four
    channel slots; its only call is the [socket] call, so the descriptor
    recorded before is not closed. *)
Theorem bt_vendor_open_overwrites
  (w : world) (fd_array : list Z) (r : response) (s : list response) :
  bt_vendor_fd w <> -1 ->
  script w = r :: s ->
  0 <= ret r ->
  (CH_ACL_IN < length fd_array)%nat ->
  exists fd_array' w',
    bt_vendor_open (FdArrayP fd_array) w = Done (1, FdArrayP fd_array') w' /\
    bt_vendor_fd w' = ret r /\
    fd_array' !! CH_CMD = Some (ret r) /\
    fd_array' !! CH_EVT = Some (ret r) /\
    fd_array' !! CH_ACL_OUT = Some (ret r) /\
    fd_array' !! CH_ACL_IN = Some (ret r) /\
    emitted w w' [(CSocket AF_BLUETOOTH SOCK_RAW BTPROTO_HCI, ret r)] /\
    ~ In (CClose (bt_vendor_fd w)) (map fst (drop (length (trace w)) (trace w'))).
Proof.
  intros _ Hs Hr Hlen.
  unfold bt_vendor_open, sys_socket, modify, mbind', mreturn, syscall.
  unfold CH_ACL_IN, CH_ACL_OUT, CH_EVT, CH_CMD in *.
  destruct fd_array as [|a0 [|a1 [|a2 [|a3 l]]]]; cbn in Hlen; try lia.
  rewrite Hs; cbn.
  destruct (Z.ltb_spec (ret r) 0) as [?|_]; [lia|].
  eexists _, _. split; [reflexivity|]. cbn.
  repeat (split; [reflexivity|]).
  rewrite drop_app_length. cbn. intros [H|[]]. discriminate.
Qed.

Lemma bt_vendor_open_overwrites_witness :
  exists fd_array' w',
    bt_vendor_open (FdArrayP [5; 5; 5; 5]) (sample_world [answer 9])
      = Done (1, FdArrayP fd_array') w' /\
    bt_vendor_fd w' = 9 /\
    fd_array' !! CH_CMD = Some 9 /\
    fd_array' !! CH_EVT = Some 9 /\
    fd_array' !! CH_ACL_OUT = Some 9 /\
    fd_array' !! CH_ACL_IN = Some 9 /\
    emitted (sample_world [answer 9]) w'
      [(CSocket AF_BLUETOOTH SOCK_RAW BTPROTO_HCI, 9)] /\
    ~ In (CClose 5) (map fst (drop 0 (trace w'))).
Proof.
  apply (bt_vendor_open_overwrites
           (sample_world [answer 9]) [5; 5; 5; 5] (answer 9) []).
  - simpl. lia.
  - reflexivity.
  - simpl. lia.
  - unfold CH_ACL_IN. simpl. lia.
Defined.

(** ** The status the dispatcher returns *)

(** C1, as the claim states it, fails: a successful channel-open request
    returns 1. *)
Lemma open_status_counterexample :
  ~ (forall opcode p w status p' w' evs,
        bt_vendor_op opcode p w = Done (status, p') w' ->
        emitted w w' evs -> no_failure evs ->
        status = 0).
Proof.
  intros H.
  specialize (H BT_VND_OP_USERIAL_OPEN (FdArrayP [0; 0; 0; 0])
                (sample_world [answer 9]) 1 (FdArrayP [9; 9; 9; 9])
                (final (bt_vendor_open (FdArrayP [0; 0; 0; 0])
                          (sample_world [answer 9])))
                [(CSocket AF_BLUETOOTH SOCK_RAW BTPROTO_HCI, 9)]).
  assert (E : 1 = 0).
  { apply H.
    - reflexivity.
    - reflexivity.
    - repeat constructor. simpl. lia. }
  discriminate E.
Qed.

(** C1, amended. When a routed operation returns and none of the calls
    it made reported a failure, its status is 0 for every opcode but the
    channel-open request, whose status is then 1. *)
Theorem bt_vendor_op_status
  (opcode : bt_vendor_opcode_t) (p p' : param) (w w' : world)
  (status : Z) (evs : list (call * Z)) :
  bt_vendor_op opcode p w = Done (status, p') w' ->
  emitted w w' evs ->
  no_failure evs ->
  status = match opcode with BT_VND_OP_USERIAL_OPEN => 1 | _ => 0 end.
Proof.
  intros H Hev Hok.
  destruct opcode; cbn in H;
    try (injection H as <- _ _; reflexivity);
    try (apply bind_inv in H as (? & ? & _ & H);
         injection H as <- _ _; reflexivity).
  - (* power control *)
    destruct ((rfkill_en w =? 0) || is_null p);
      [injection H as <- _ _; reflexivity|].
    destruct p as [|v| |]; try discriminate.
    destruct (v =? BT_VND_PWR_ON).
    + apply bind_inv in H as (s1 & w1 & H1 & H).
      destruct (bt_vendor_rfkill_inv _ _ _ _ H1) as (radio & Hr & _ & Sr).
      destruct (Z.eqb_spec s1 0) as [->|Hs1].
      * apply bind_inv in H as (s2 & w2 & H2 & H). injection H as <- _ <-.
        destruct (bt_vendor_hw_cfg_inv _ _ _ _ H2) as (hook & Hh & _ & Sh).
        destruct Sh as [->|Sh]; [reflexivity|]. exfalso. apply Sh.
        rewrite (emitted_inj _ _ _ _ Hev (emitted_app _ _ _ _ _ Hr Hh)) in Hok.
        now apply Forall_app in Hok.
      * injection H as <- _ <-. destruct Sr as [->|Sr]; [reflexivity|].
        exfalso. apply Sr. now rewrite <- (emitted_inj _ _ _ _ Hev Hr).
    + apply bind_inv in H as (s1 & w1 & H1 & H).
      destruct (bt_vendor_hw_cfg_inv _ _ _ _ H1) as (hook & Hh & _ & Sh).
      destruct (Z.eqb_spec s1 0) as [->|Hs1].
      * apply bind_inv in H as (s2 & w2 & H2 & H). injection H as <- _ <-.
        destruct (bt_vendor_rfkill_inv _ _ _ _ H2) as (radio & Hr & _ & Sr).
        destruct Sr as [->|Sr]; [reflexivity|]. exfalso. apply Sr.
        rewrite (emitted_inj _ _ _ _ Hev (emitted_app _ _ _ _ _ Hh Hr)) in Hok.
        now apply Forall_app in Hok.
      * injection H as <- _ <-. destruct Sh as [->|Sh]; [reflexivity|].
        exfalso. apply Sh. now rewrite <- (emitted_inj _ _ _ _ Hev Hh).
  - (* channel open *)
    revert H. unfold bt_vendor_open, sys_socket, modify, mbind', mreturn,
      syscall.
    destruct (script w) as [|r s]; [discriminate|]; cbn.
    destruct (Z.ltb_spec (ret r) 0) as [Hr|Hr].
    + intros [= <- <- <-]. exfalso.
      assert (E : evs = [(CSocket AF_BLUETOOTH SOCK_RAW BTPROTO_HCI, ret r)])
        by (eapply emitted_inj; [exact Hev|reflexivity]).
      subst evs. apply Forall_inv in Hok. cbn in Hok. lia.
    + destruct p as [| |a|]; try discriminate.
      match goal with |- context [if ?b then _ else _] => destruct b end;
        [|discriminate].
      now intros [= <- _ _].
  - (* idle timeout *)
    destruct p; try discriminate. now injection H as <- _ _.
Qed.

Lemma bt_vendor_op_status_witness :
  1 = match BT_VND_OP_USERIAL_OPEN with
      | BT_VND_OP_USERIAL_OPEN => 1
      | _ => 0
      end.
Proof.
  apply (bt_vendor_op_status BT_VND_OP_USERIAL_OPEN
           (FdArrayP [0; 0; 0; 0]) (FdArrayP [9; 9; 9; 9])
           (sample_world [answer 9])
           (final (bt_vendor_open (FdArrayP [0; 0; 0; 0])
                     (sample_world [answer 9])))
           1 [(CSocket AF_BLUETOOTH SOCK_RAW BTPROTO_HCI, 9)]).
  - reflexivity.
  - reflexivity.
  - repeat constructor. simpl. lia.
Defined.

(** ** Computations that only make calls of one kind *)

Section Quiet.

Variable P : call -> Prop.

Lemma quiet_refl (w : world) : quiet P w w.
Proof.
  repeat split; auto. exists []. split; [apply emitted_refl|constructor].
Qed.

Lemma quiet_trans (w1 w2 w3 : world) :
  quiet P w1 w2 -> quiet P w2 w3 -> quiet P w1 w3.
Proof.
  intros ((a1 & a2 & a3 & a4 & a5) & L1 & l1 & E1 & F1)
         ((b1 & b2 & b3 & b4 & b5) & L2 & l2 & E2 & F2).
  split; [repeat split; congruence|]. split; [lia|].
  exists (l1 ++ l2). split; [eauto using emitted_app|].
  apply Forall_app; auto.
Qed.

Lemma quiet_log (c : call) (r : Z) (w : world) :
  P c -> quiet P w (log c r w).
Proof.
  intros H. repeat split; auto. exists [(c, r)].
  split; [reflexivity|]. now repeat constructor.
Qed.

Lemma keeps_ret {A} (a : A) : keeps P (mreturn a).
Proof. intros w. apply quiet_refl. Qed.

Lemma keeps_get {A} (f : world -> A) : keeps P (get f).
Proof. intros w. apply quiet_refl. Qed.

Lemma keeps_fault {A} : keeps P (@fault A).
Proof. intros w. apply quiet_refl. Qed.

Lemma keeps_bind {A B} (m : M A) (k : A -> M B) :
  keeps P m -> (forall a, keeps P (k a)) -> keeps P (mbind' m k).
Proof.
  intros Hm Hk w. unfold mbind'. specialize (Hm w).
  destruct (m w) as [a w1|c w1|w1]; auto.
  specialize (Hk a w1).
  destruct (k a w1) as [b w2|c w2|w2]; eauto using quiet_trans.
  destruct Hk as (Q & Pc & E). eauto using quiet_trans.
Qed.

Lemma keeps_syscall (c : call) : P c -> keeps P (syscall c).
Proof.
  intros H w. unfold syscall.
  destruct (script w) as [|r s] eqn:E.
  - split; [apply quiet_refl|]. now split.
  - apply (quiet_trans w (set_script s w)); [|apply quiet_log; exact H].
    repeat split; cbn; auto; [rewrite E; cbn; lia|].
    exists []. split; [|constructor].
    unfold emitted; cbn. now rewrite app_nil_r.
Qed.

Lemma keeps_action (c : call) : P c -> keeps P (action c).
Proof. intros H w. now apply quiet_log. Qed.

End Quiet.

Ltac keeps_step :=
  lazymatch goal with
  | |- keeps _ (mbind' _ _) => apply keeps_bind; [|intros ?]
  | |- keeps _ (mreturn _) => apply keeps_ret
  | |- keeps _ fault => apply keeps_fault
  | |- keeps _ (get _) => apply keeps_get
  | |- keeps _ (syscall _) => apply keeps_syscall
  | |- keeps _ (action _) => apply keeps_action
  | |- keeps _ (let '(_, _) := ?x in _) => destruct x
  | |- keeps _ (if ?b then _ else _) => destruct b
  | |- keeps _ (match ?x with _ => _ end) => destruct x
  end.

Section QuietWatcher.

Variable P : call -> Prop.
Hypothesis P_poll : forall fd, P (CPoll fd POLLIN MGMT_EV_POLL_TIMEOUT).
Hypothesis P_read : forall fd n, P (CRead fd n).
Hypothesis P_write : forall fd bytes, P (CWrite fd bytes).

Lemma wait_iteration_keeps (fd : Z) (ev : list Z) :
  keeps P (wait_iteration fd ev).
Proof.
  unfold wait_iteration, sys_read.
  repeat (keeps_step; cbv zeta); auto.
Qed.

(** A turn of the loop that returns has taken an answer. *)
Lemma wait_iteration_consumes (fd : Z) (ev : list Z) (w w' : world)
  (turn : ctl * list Z) :
  wait_iteration fd ev w = Done turn w' ->
  (length (script w') < length (script w))%nat.
Proof.
  unfold wait_iteration. intros H.
  apply bind_inv in H as (p & w1 & H1 & H).
  assert (L1 : (length (script w1) < length (script w))%nat).
  { revert H1. unfold syscall. destruct (script w) as [|r s];
      [discriminate|]. intros [= <- <-]. cbn. lia. }
  enough (Q : quiet P w1 w') by (destruct Q as (_ & L & _); lia).
  match type of H with ?m w1 = _ =>
    assert (K : keeps P m)
  end.
  { unfold sys_read. repeat (keeps_step; cbv zeta); auto. }
  specialize (K w1). now rewrite H in K.
Qed.

Lemma wait_loop_keeps (fuel : nat) (fd : Z) (ev : list Z) (w : world) :
  (length (script w) <= fuel)%nat ->
  match wait_loop fuel fd ev w with
  | Done _ w' => quiet P w w'
  | Blocked c w' => quiet P w w' /\ P c /\ script w' = []
  | Fault w' => quiet P w w'
  end.
Proof.
  revert ev w. induction fuel as [|fuel IH]; intros ev w Hf.
  - cbn. split; [apply quiet_refl|]. split; [apply P_poll|].
    destruct (script w); [reflexivity|cbn in Hf; lia].
  - cbn. unfold mbind'.
    pose proof (wait_iteration_keeps fd ev w) as K.
    destruct (wait_iteration fd ev w) as [[c ev'] w1|c w1|w1] eqn:E; auto.
    apply wait_iteration_consumes in E.
    destruct c as [|status]; [|exact K].
    specialize (IH ev' w1 ltac:(lia)).
    destruct (wait_loop fuel fd ev' w1) as [a w2|c w2|w2];
      eauto using quiet_trans.
    destruct IH as (Q & Pc & Es). eauto using quiet_trans.
Qed.

Lemma wait_while_keeps (fd : Z) (ev : list Z) : keeps P (wait_while fd ev).
Proof.
  intros w. unfold wait_while, get, mbind'.
  apply wait_loop_keeps. lia.
Qed.

Lemma wait_request_keeps (fd : Z) (ev : list Z) :
  keeps P (wait_request fd ev).
Proof.
  unfold wait_request, sys_write.
  repeat (keeps_step; cbv zeta); auto using wait_while_keeps.
Qed.

Hypothesis P_socket : forall d t p, P (CSocket d t p).
Hypothesis P_bind : forall fd fam dev chan, P (CBind fd fam dev chan).
Hypothesis P_close : forall fd, P (CClose fd).

Lemma bt_vendor_wait_hcidev_keeps : keeps P bt_vendor_wait_hcidev.
Proof.
  unfold bt_vendor_wait_hcidev, sys_socket, sys_bind, sys_close.
  repeat (keeps_step; cbv zeta); auto using wait_request_keeps.
Qed.

End QuietWatcher.



(** ** The budget of the wait *)

(** C8. Whatever the kernel answers and however the index watcher ends,
    every [poll] call it made was given the constant
    [MGMT_EV_POLL_TIMEOUT] as its timeout, and so is the [poll] call it
    may still be blocked in: the budget is the same in every turn of the
    loop. *)
Theorem poll_budget_constant (w : world) :
  (exists evs,
     emitted w (final (bt_vendor_wait_hcidev w)) evs /\
     Forall (fun e => poll_budget_ok (fst e)) evs) /\
  (forall c w', bt_vendor_wait_hcidev w = Blocked c w' -> poll_budget_ok c).
Proof.
  assert (K : keeps poll_budget_ok bt_vendor_wait_hcidev)
    by (apply bt_vendor_wait_hcidev_keeps; intros; exact I || reflexivity).
  specialize (K w).
  destruct (bt_vendor_wait_hcidev w) as [a w1|c w1|w1]; cbn.
  - destruct K as (_ & _ & K). split; [exact K|discriminate].
  - destruct K as ((_ & _ & K) & Pc & _). split; [exact K|].
    now intros ? ? [= <- _].
  - destruct K as (_ & _ & K). split; [exact K|discriminate].
Qed.

(** ** The control socket *)

(** C6. Once the control socket has been created, every return of the
    index watcher (success, timeout, poll error, read error, bind
    failure, request-write failure) is preceded by the close of that
    socket: the close is the last call made, and the only close. *)
Theorem control_socket_closed
  (w w' : world) (r : response) (s : list response) (status : Z) :
  script w = r :: s ->
  0 <= ret r ->
  bt_vendor_wait_hcidev w = Done status w' ->
  exists mid,
    emitted w w'
      ((CSocket PF_BLUETOOTH SOCK_RAW BTPROTO_HCI, ret r)
         :: mid ++ [(CClose (ret r), 0)]) /\
    Forall (fun e => not_close (fst e)) mid.
Proof.
  intros Hs Hr. unfold bt_vendor_wait_hcidev.
  unfold sys_socket at 1. unfold mbind' at 1 2. rewrite (syscall_cons _ _ _ _ Hs).
  cbn. destruct (Z.ltb_spec (ret r) 0) as [?|_]; [lia|].
  set (w1 := log _ _ _).
  unfold sys_bind at 1. unfold mbind' at 1 2. unfold syscall.
  destruct (script w1) as [|r2 s2] eqn:Hs1; [discriminate|]. cbn.
  set (w2 := log _ _ _).
  destruct (ret r2 <? 0).
  - unfold sys_close, action, mbind', mreturn. intros [= <- <-].
    exists [(CBind (ret r) AF_BLUETOOTH HCI_DEV_NONE HCI_CHANNEL_CONTROL, ret r2)].
    split; [|repeat constructor].
    unfold emitted. cbn. rewrite <- !app_assoc. reflexivity.
  - unfold get at 1. unfold mbind' at 1. cbv zeta.
    intros H. apply bind_inv in H as (st & w3 & H3 & H).
    unfold sys_close, action, mbind', mreturn in H. injection H as <- <-.
    assert (K : keeps not_close
                  (wait_request (ret r)
                     (store_u16 off_len 0
                        (store_u16 off_index HCI_DEV_NONE
                           (store_u16 off_opcode MGMT_OP_INDEX_LIST
                              (uninitialised_ev w2))))))
      by (apply wait_request_keeps; intros; reflexivity).
    specialize (K w2). rewrite H3 in K. destruct K as (_ & _ & evs & E & F).
    exists ((CBind (ret r) AF_BLUETOOTH HCI_DEV_NONE HCI_CHANNEL_CONTROL, ret r2)
              :: evs).
    split; [|constructor; [reflexivity|exact F]].
    unfold emitted in *. cbn. rewrite E. cbn.
    rewrite <- !app_assoc. reflexivity.
Qed.

Lemma control_socket_closed_witness :
  exists mid,
    emitted
      (sample_world [answer 7; answer 0; answer 6; poll_answer 0 0])
      (final (bt_vendor_wait_hcidev
                (sample_world [answer 7; answer 0; answer 6; poll_answer 0 0])))
      ((CSocket PF_BLUETOOTH SOCK_RAW BTPROTO_HCI, 7)
         :: mid ++ [(CClose 7, 0)]) /\
    Forall (fun e => not_close (fst e)) mid.
Proof.
  apply (control_socket_closed
           (sample_world [answer 7; answer 0; answer 6; poll_answer 0 0])
           (final (bt_vendor_wait_hcidev
                     (sample_world
                        [answer 7; answer 0; answer 6; poll_answer 0 0])))
           (answer 7) [answer 0; answer 6; poll_answer 0 0] (-1)).
  - reflexivity.
  - simpl. lia.
  - vm_compute. reflexivity.
Defined.

(** ** The bring-up sequence *)

Lemma invoke_registered (cb : callback) (result : bt_vendor_op_result_t)
  (w : world) :
  bt_vendor_callbacks w = true ->
  invoke cb result w = Done tt (log (CCallback cb result) 0 w).
Proof. intros H. unfold invoke, action. now rewrite H. Qed.





(** ** Bytes *)

Lemma le16_value (v : Z) : u16 v -> v mod 256 + 256 * (v / 256 mod 256) = v.
Proof.
  unfold u16. intros H.
  rewrite (Z.mod_small (v / 256) 256).
  - pose proof (Z.div_mod v 256). lia.
  - split; [apply Z.div_pos; lia|apply Z.div_lt_upper_bound; lia].
Qed.

Lemma load_u16_le16 (pre post : list Z) (v : Z) (off : nat) :
  length pre = off -> u16 v ->
  load_u16 (pre ++ le16 v ++ post) off = Some v.
Proof.
  intros <- H. unfold load_u16.
  rewrite lookup_app_r by lia.
  rewrite (lookup_app_r pre) by lia.
  replace (length pre - length pre)%nat with 0%nat by lia.
  replace (S (length pre) - length pre)%nat with 1%nat by lia.
  cbn. now rewrite le16_value.
Qed.

Lemma scan_index_found (l : list Z) :
  forall (pre post : list Z) (target : Z) (i : nat),
    length pre = off_cc_index i ->
    Forall u16 l ->
    scan_index (length l) i (pre ++ concat (map le16 l) ++ post) target
    = Some (existsb (fun x => x =? target) l).
Proof.
  induction l as [|v l IH]; intros pre post target i Hpre Hl.
  - reflexivity.
  - apply Forall_cons in Hl as [Hv Hl].
    cbn [length scan_index map concat existsb].
    rewrite <- app_assoc.
    rewrite (load_u16_le16 pre _ v) by assumption.
    destruct (v =? target); [reflexivity|]. cbn [orb].
    specialize (IH (pre ++ le16 v) post target (S i)).
    rewrite <- !app_assoc in IH. apply IH; [|exact Hl].
    rewrite length_app, Hpre. unfold off_cc_index, off_data, le16.
    cbn [length]. lia.
Qed.

Lemma concat_le16_length (l : list Z) :
  length (concat (map le16 l)) = (2 * length l)%nat.
Proof.
  induction l as [|v l IH]; [reflexivity|].
  cbn [map concat]. rewrite length_app, IH. cbn [le16 length]. lia.
Qed.

Lemma u16_const (v : Z) : (0 <=? v) && (v <? 65536) = true -> u16 v.
Proof. unfold u16. lia. Qed.

Lemma mod256_u8 (v : Z) : u8 v -> v mod 256 = v.
Proof. unfold u8. intros H. now apply Z.mod_small. Qed.

Ltac load_fields :=
  unfold examine, load_u16, load_u8, encode, mgmt_packet, le16,
    off_opcode, off_index, off_cc_opcode, off_cc_status, off_cc_num_intf,
    off_data;
  cbn [app lookup list_lookup Nat.add];
  rewrite ?le16_value by (assumption || (apply u16_const; reflexivity)).

Lemma examine_event (e : mgmt_event) (tail : list Z) (target : Z) :
  wf_event e ->
  length (encode e ++ tail) = sizeof_mgmt_pkt ->
  examine (encode e ++ tail) target
  = Some (if reports target e then Leave 0 else Continue).
Proof.
  intros [Hlen Hwf] Hbuf.
  destruct e as [index|index status indices|index cc status rest
                |opcode index payload]; cbn [reports].
  - load_fields. cbn [Z.eqb MGMT_EV_INDEX_ADDED andb Pos.eqb].
    destruct (index =? target); reflexivity.
  - destruct Hwf as (Hi & Hs & Hl).
    assert (Hn : u16 (Z.of_nat (length indices))).
    { revert Hlen. unfold encode, mgmt_packet.
      rewrite !length_app, concat_le16_length. unfold le16, u16. cbn [length].
      change sizeof_mgmt_pkt with 1030%nat. lia. }
    unfold encode, mgmt_packet.
    set (body := concat (map le16 indices)).
    generalize (Z.of_nat (length (le16 MGMT_OP_INDEX_LIST ++ [status mod 256]
                          ++ le16 (Z.of_nat (length indices)) ++ body))).
    intros plen.
    load_fields.
    change (MGMT_EV_COMMAND_COMP =? MGMT_EV_INDEX_ADDED) with false.
    change (MGMT_EV_COMMAND_COMP =? MGMT_EV_COMMAND_COMP) with true.
    change (MGMT_OP_INDEX_LIST =? MGMT_OP_INDEX_LIST) with true.
    rewrite (mod256_u8 status) by exact Hs.
    cbn [andb negb orb].
    destruct (status =? 0); cbn [negb andb]; [|reflexivity].
    rewrite Nat2Z.id.
    match goal with
    | |- context [scan_index _ 0
                    (?b0 :: ?b1 :: ?b2 :: ?b3 :: ?b4 :: ?b5 :: ?b6 :: ?b7
                       :: ?b8 :: ?b9 :: ?b10 :: body ++ tail) _] =>
        change (b0 :: b1 :: b2 :: b3 :: b4 :: b5 :: b6 :: b7 :: b8 :: b9
                  :: b10 :: body ++ tail)
          with ([b0; b1; b2; b3; b4; b5; b6; b7; b8; b9; b10]
                  ++ body ++ tail)
    end.
    subst body. rewrite scan_index_found by (reflexivity || exact Hl).
    destruct indices as [|v l]; [reflexivity|].
    replace (0 <? Z.of_nat (length (v :: l))) with true
      by (symmetry; apply Z.ltb_lt; cbn [length]; lia).
    now destruct (existsb _ _).
  - destruct Hwf as (Hi & Hc & Hs & Hmis).
    unfold encode, mgmt_packet.
    set (body := map (fun b => b mod 256) rest).
    assert (Hbt : length (body ++ tail) = 1021%nat).
    { revert Hbuf. unfold encode, mgmt_packet. fold body.
      rewrite <- !app_assoc, !length_app. unfold le16. cbn [length].
      rewrite <- length_app. change sizeof_mgmt_pkt with 1030%nat. lia. }
    generalize (Z.of_nat (length (le16 cc ++ [status mod 256] ++ body))).
    intros plen.
    load_fields.
    change (MGMT_EV_COMMAND_COMP =? MGMT_EV_INDEX_ADDED) with false.
    change (MGMT_EV_COMMAND_COMP =? MGMT_EV_COMMAND_COMP) with true.
    cbn [andb].
    destruct (body ++ tail) as [|x [|y l]]; [discriminate..|].
    cbn [lookup list_lookup].
    rewrite (mod256_u8 status) by exact Hs.
    replace (negb (cc =? MGMT_OP_INDEX_LIST) || negb (status =? 0))
      with true; [reflexivity|].
    symmetry. apply orb_true_iff.
    destruct Hmis as [H|H]; [left|right]; apply negb_true_iff, Z.eqb_neq, H.
  - destruct Hwf as (Ho & Hi & H4 & H1).
    unfold encode, mgmt_packet.
    generalize (map (fun b => b mod 256) payload). intros body.
    generalize (Z.of_nat (length body)). intros plen.
    load_fields.
    apply Z.eqb_neq in H4, H1. rewrite H4, H1. reflexivity.
Qed.

Lemma u8_mod (v : Z) : u8 (v mod 256).
Proof. unfold u8. apply Z.mod_pos_bound. lia. Qed.

Lemma le16_u8 (v : Z) : Forall u8 (le16 v).
Proof. unfold le16. repeat constructor; apply u8_mod. Qed.

Lemma map_mod_u8 (l : list Z) : Forall u8 (map (fun b => b mod 256) l).
Proof. induction l; constructor; auto using u8_mod. Qed.

Lemma concat_le16_u8 (l : list Z) : Forall u8 (concat (map le16 l)).
Proof.
  induction l as [|v l IH]; [constructor|].
  cbn [map concat]. apply Forall_app. auto using le16_u8.
Qed.

Lemma encode_u8 (e : mgmt_event) : Forall u8 (encode e).
Proof.
  destruct e; unfold encode, mgmt_packet;
    repeat (apply Forall_app; split);
    auto using le16_u8, map_mod_u8, concat_le16_u8;
    repeat constructor; apply u8_mod.
Qed.

Lemma map_mod_id (l : list Z) :
  Forall u8 l -> map (fun b => b mod 256) l = l.
Proof.
  induction 1 as [|v l H _ IH]; [reflexivity|].
  cbn [map]. now rewrite IH, mod256_u8.
Qed.

(** ** One turn of the loop on each kind of cycle *)

Lemma sys_read_event (fd : Z) (ev : list Z) (e : mgmt_event)
  (s : list response) (w : world) :
  wf_event e ->
  script w = read_answer (encode e) :: s ->
  sys_read fd ev w
  = Done (Z.of_nat (length (encode e)),
          encode e ++ drop (length (encode e)) ev)
         (log (CRead fd (Z.of_nat sizeof_mgmt_pkt))
              (Z.of_nat (length (encode e))) (set_script s w)).
Proof.
  intros [Hlen _] Hs. unfold sys_read, mbind'.
  rewrite (syscall_cons _ _ _ _ Hs). cbn [ret data read_answer].
  destruct (Z.ltb_spec (Z.of_nat (length (encode e))) 0) as [?|_]; [lia|].
  rewrite (map_mod_id _ (encode_u8 e)), take_ge by exact Hlen.
  reflexivity.
Qed.

Lemma wait_iteration_event (fd : Z) (ev : list Z) (e : mgmt_event)
  (s : list response) (w : world) :
  wf_event e ->
  length ev = sizeof_mgmt_pkt ->
  script w = poll_answer 1 POLLIN :: read_answer (encode e) :: s ->
  exists ev' w',
    wait_iteration fd ev w
    = Done (if reports (hci_interface w) e then Leave 0 else Continue, ev') w'
    /\ length ev' = sizeof_mgmt_pkt
    /\ script w' = s
    /\ hci_interface w' = hci_interface w.
Proof.
  intros Hwf Hev Hs.
  assert (Hl : length (encode e ++ drop (length (encode e)) ev)
               = sizeof_mgmt_pkt).
  { destruct Hwf as [Hlen _]. rewrite length_app, length_drop. lia. }
  unfold wait_iteration. unfold mbind' at 1.
  rewrite (syscall_cons _ _ _ _ Hs). cbn [ret revents poll_answer].
  change (1 =? -1) with false. change (1 =? 0) with false.
  change (negb (Z.land POLLIN POLLIN =? 0)) with true. cbv iota.
  unfold mbind' at 1.
  rewrite (sys_read_event _ _ e s) by (assumption || reflexivity).
  destruct (Z.ltb_spec (Z.of_nat (length (encode e))) 0) as [?|_]; [lia|].
  unfold get, mbind'. rewrite examine_event by assumption.
  cbn [hci_interface log set_script].
  eexists _, _. split; [reflexivity|]. now split.
Qed.

(** ** The loop against the specification's wording *)

Lemma wait_loop_refines (cs : list cycle) :
  forall (fuel : nat) (fd : Z) (ev : list Z) (w : world),
    Forall wf_cycle cs ->
    length ev = sizeof_mgmt_pkt ->
    script w = answers_of cs ->
    (length (script w) <= fuel)%nat ->
    match wait_for_index (hci_interface w) cs with
    | Some o => returned (wait_loop fuel fd ev w) = Some (status_of o)
    | None =>
        blocked_in (wait_loop fuel fd ev w)
        = Some (CPoll fd POLLIN MGMT_EV_POLL_TIMEOUT)
    end.
Proof.
  induction cs as [|c cs IH]; intros fuel fd ev w Hwf Hev Hs Hfuel.
  - cbn [wait_for_index]. destruct fuel as [|fuel]; [reflexivity|].
    cbn [wait_loop]. unfold mbind', wait_iteration.
    unfold mbind'. now rewrite (syscall_nil _ _ Hs).
  - apply Forall_cons in Hwf as [Hc Hwf].
    unfold answers_of in Hs. cbn [map concat] in Hs.
    destruct fuel as [|fuel];
      [rewrite Hs in Hfuel; destruct c; cbn in Hfuel; lia|].
    cbn [wait_loop]. unfold mbind'.
    destruct c as [| |rev| |e]; cbn [answers app] in Hs;
      cbn [wait_for_index].
    + replace (wait_iteration fd ev w)
        with (Done (Leave (-1), ev)
                (log (CPoll fd POLLIN MGMT_EV_POLL_TIMEOUT) (-1)
                   (set_script (concat (map answers cs)) w)));
        [reflexivity|].
      unfold wait_iteration, mbind'. now rewrite (syscall_cons _ _ _ _ Hs).
    + replace (wait_iteration fd ev w)
        with (Done (Leave (-1), ev)
                (log (CPoll fd POLLIN MGMT_EV_POLL_TIMEOUT) 0
                   (set_script (concat (map answers cs)) w)));
        [reflexivity|].
      unfold wait_iteration, mbind'. now rewrite (syscall_cons _ _ _ _ Hs).
    + replace (wait_iteration fd ev w)
        with (Done (Continue, ev)
                (log (CPoll fd POLLIN MGMT_EV_POLL_TIMEOUT) 1
                   (set_script (concat (map answers cs)) w))).
      * refine (IH fuel fd ev
                  (log (CPoll fd POLLIN MGMT_EV_POLL_TIMEOUT) 1
                     (set_script (concat (map answers cs)) w))
                  Hwf Hev eq_refl _).
        rewrite Hs in Hfuel. cbn [script log set_script length] in *. lia.
      * unfold wait_iteration, mbind'. rewrite (syscall_cons _ _ _ _ Hs).
        cbn [ret revents poll_answer]. cbn in Hc. now rewrite Hc.
    + replace (wait_iteration fd ev w)
        with (Done (Leave (-1), ev)
                (log (CRead fd (Z.of_nat sizeof_mgmt_pkt)) (-1)
                   (set_script (concat (map answers cs))
                      (log (CPoll fd POLLIN MGMT_EV_POLL_TIMEOUT) 1
                         (set_script (answer (-1) :: concat (map answers cs))
                            w)))));
        [reflexivity|].
      unfold wait_iteration, mbind' at 1. rewrite (syscall_cons _ _ _ _ Hs).
      cbn [ret revents poll_answer].
      change (1 =? -1) with false. change (1 =? 0) with false.
      change (negb (Z.land POLLIN POLLIN =? 0)) with true. cbv iota.
      unfold sys_read, mbind'.
      now rewrite (syscall_cons _ (answer (-1)) (concat (map answers cs)))
        by reflexivity.
    + destruct (wait_iteration_event fd ev e (answers_of cs) w Hc Hev Hs)
        as (ev' & w' & E & Hev' & Hs' & Hh).
      rewrite E. destruct (reports (hci_interface w) e); [reflexivity|].
      rewrite <- Hh. apply IH; auto.
      rewrite Hs in Hfuel. rewrite Hs'. unfold answers_of.
      cbn [length] in Hfuel. lia.
Qed.

Lemma returned_bind {A B} (m : M A) (k : A -> M B) (w : world) :
  returned (mbind' m k w)
  = match m w with Done a w' => returned (k a w') | _ => None end.
Proof. unfold mbind'. now destruct (m w). Qed.

Lemma blocked_in_bind {A B} (m : M A) (k : A -> M B) (w : world) :
  blocked_in (mbind' m k w)
  = match m w with
    | Done a w' => blocked_in (k a w')
    | Blocked c _ => Some c
    | Fault _ => None
    end.
Proof. unfold mbind'. now destruct (m w). Qed.

Lemma request_length (w : world) :
  length (store_u16 off_len 0
            (store_u16 off_index HCI_DEV_NONE
               (store_u16 off_opcode MGMT_OP_INDEX_LIST
                  (uninitialised_ev w))))
  = sizeof_mgmt_pkt.
Proof.
  unfold store_u16, uninitialised_ev.
  now rewrite !length_insert, length_map, length_seq.
Qed.

(** The watcher, once its socket is bound and its request written, is
    the watcher of the specification. *)
Lemma bt_vendor_wait_hcidev_refines
  (w : world) (fd b : Z) (cs : list cycle) :
  0 <= fd -> 0 <= b ->
  Forall wf_cycle cs ->
  script w = answer fd :: answer b :: answer 6 :: answers_of cs ->
  match wait_for_index (hci_interface w) cs with
  | Some o => returned (bt_vendor_wait_hcidev w) = Some (status_of o)
  | None =>
      blocked_in (bt_vendor_wait_hcidev w)
      = Some (CPoll fd POLLIN MGMT_EV_POLL_TIMEOUT)
  end.
Proof.
  intros Hfd Hb Hwf Hs.
  set (w1 := log (CSocket PF_BLUETOOTH SOCK_RAW BTPROTO_HCI) fd
               (set_script (answer b :: answer 6 :: answers_of cs) w)).
  set (w2 := log (CBind fd AF_BLUETOOTH HCI_DEV_NONE HCI_CHANNEL_CONTROL) b
               (set_script (answer 6 :: answers_of cs) w1)).
  set (ev := store_u16 off_len 0
               (store_u16 off_index HCI_DEV_NONE
                  (store_u16 off_opcode MGMT_OP_INDEX_LIST
                     (uninitialised_ev w2)))).
  set (w3 := log (CWrite fd (take (sizeof_mgmt_pkt
                                   - Z.to_nat MGMT_EV_SIZE_MAX) ev)) 6
               (set_script (answers_of cs) w2)).
  assert (E : forall A (k : Z -> M A),
             mbind' bt_vendor_wait_hcidev k w
             = mbind' (wait_loop (length (answers_of cs)) fd ev)
                 (fun status => sys_close fd ;;; k status) w3).
  { intros A k. unfold bt_vendor_wait_hcidev.
    unfold sys_socket at 1. unfold mbind' at 1 2 3.
    rewrite (syscall_cons _ _ _ _ Hs). cbn [ret answer mreturn].
    destruct (Z.ltb_spec fd 0) as [?|_]; [lia|]. fold w1.
    unfold sys_bind at 1. unfold mbind' at 1 2 3.
    rewrite (syscall_cons _ (answer b) (answer 6 :: answers_of cs) w1)
      by reflexivity.
    cbn [ret answer mreturn].
    destruct (Z.ltb_spec b 0) as [?|_]; [lia|]. fold w2.
    unfold get at 1. unfold mbind' at 1. cbv zeta. fold ev.
    unfold wait_request, sys_write. unfold mbind' at 1 2 3 4.
    rewrite (syscall_cons _ (answer 6) (answers_of cs) w2) by reflexivity.
    cbn [ret answer mreturn]. change (negb (6 =? 6)) with false. cbv iota.
    fold w3. unfold wait_while, get. unfold mbind' at 1.
    unfold mbind'. cbn [script log set_script w3].
    destruct (wait_loop _ _ _ _); reflexivity. }
  pose proof (wait_loop_refines cs (length (answers_of cs)) fd ev w3 Hwf
                (request_length w2) eq_refl (Nat.le_refl _)) as R.
  change (hci_interface w3) with (hci_interface w) in R.
  specialize (E Z mreturn).
  replace (mbind' bt_vendor_wait_hcidev mreturn w)
    with (bt_vendor_wait_hcidev w) in E
    by (unfold mbind'; now destruct (bt_vendor_wait_hcidev w)).
  rewrite E.
  destruct (wait_for_index (hci_interface w) cs) as [o|].
  - rewrite returned_bind.
    destruct (wait_loop _ _ _ _) as [a w'| |]; try discriminate.
    cbn in R. injection R as ->. reflexivity.
  - rewrite blocked_in_bind.
    destruct (wait_loop _ _ _ _) as [a w'|c w'|]; try discriminate.
    exact R.
Qed.

(** ** The specification's watcher, cycle by cycle *)

Lemma wait_for_index_skip (target : Z) (pre rest : list cycle) :
  forallb (ignored target) pre = true ->
  wait_for_index target (pre ++ rest) = wait_for_index target rest.
Proof.
  induction pre as [|c pre IH]; [reflexivity|].
  cbn [forallb]. intros [Hc Hpre]%andb_true_iff.
  destruct c as [| |rev| |e]; try discriminate; cbn [app wait_for_index].
  - auto.
  - cbn in Hc. apply negb_true_iff in Hc. rewrite Hc. auto.
Qed.

Lemma wait_for_index_success (target : Z) (cs : list cycle) :
  wait_for_index target cs = Some Success <->
  exists pre e post,
    cs = pre ++ Event e :: post /\
    forallb (ignored target) pre = true /\
    reports target e = true.
Proof.
  split.
  - induction cs as [|c cs IH]; [discriminate|].
    destruct c as [| |rev| |e]; cbn [wait_for_index]; try discriminate.
    + intros H. destruct (IH H) as (pre & e & post & -> & Hp & He).
      now exists (NotReadable rev :: pre), e, post.
    + destruct (reports target e) eqn:Hr.
      * intros _. now exists [], e, cs.
      * intros H. destruct (IH H) as (pre & e' & post & -> & Hp & He).
        exists (Event e :: pre), e', post. repeat split; auto.
        cbn. now rewrite Hr.
  - intros (pre & e & post & -> & Hp & He).
    rewrite wait_for_index_skip by exact Hp. cbn. now rewrite He.
Qed.

Lemma mismatched_not_reported (target : Z) (e : mgmt_event) :
  mismatched e -> reports target e = false.
Proof.
  destruct e; cbn; try tauto.
  intros H. apply Z.eqb_neq in H. now rewrite H.
Qed.

(** ** When the index watcher succeeds *)

(** X26. With its control socket created and bound and its request
    written, the index watcher, fed well-formed cycles, returns success
    (0) if and only if, after cycles it ignores, it reads an event that
    reports the target: an index-added notification whose index is the
    target, or a command-complete of the index-list command with status
    0 whose index sequence holds the target.  It returns failure (-1)
    when a poll cycle of the wait times out.  After a command-complete
    with another sub-opcode or a non-zero status it has returned nothing:
    it is polling again. *)
Theorem wait_hcidev_success_iff
  (w : world) (fd b : Z) (cs : list cycle) :
  0 <= fd -> 0 <= b ->
  Forall wf_cycle cs ->
  script w = answer fd :: answer b :: answer 6 :: answers_of cs ->
  (returned (bt_vendor_wait_hcidev w) = Some 0 <->
   exists pre e post,
     cs = pre ++ Event e :: post /\
     forallb (ignored (hci_interface w)) pre = true /\
     reports (hci_interface w) e = true) /\
  (forall pre post,
     cs = pre ++ PollTimeout :: post ->
     forallb (ignored (hci_interface w)) pre = true ->
     returned (bt_vendor_wait_hcidev w) = Some (-1)) /\
  (forall pre e,
     cs = pre ++ [Event e] ->
     forallb (ignored (hci_interface w)) pre = true ->
     mismatched e ->
     blocked_in (bt_vendor_wait_hcidev w)
     = Some (CPoll fd POLLIN MGMT_EV_POLL_TIMEOUT)).
Proof.
  intros Hfd Hb Hwf Hs.
  pose proof (bt_vendor_wait_hcidev_refines w fd b cs Hfd Hb Hwf Hs) as R.
  split; [|split].
  - rewrite <- wait_for_index_success.
    destruct (wait_for_index (hci_interface w) cs) as [o|].
    + rewrite R. destruct o; cbn; split; congruence.
    + split; [|discriminate].
      destruct (bt_vendor_wait_hcidev w); discriminate.
  - intros pre post -> Hp.
    rewrite wait_for_index_skip in R by exact Hp. exact R.
  - intros pre e -> Hp He.
    rewrite wait_for_index_skip in R by exact Hp. cbn in R.
    now rewrite (mismatched_not_reported _ _ He) in R.
Qed.

Lemma wait_hcidev_success_iff_witness :
  returned
    (bt_vendor_wait_hcidev
       (sample_world
          (answer 7 :: answer 0 :: answer 6
             :: answers_of [Event (CommandComplete 0 5 0 []);
                            NotReadable 8;
                            Event (IndexList 65535 0 [1; 0])])))
  = Some 0.
Proof.
  apply (proj1 (wait_hcidev_success_iff
                  (sample_world
                     (answer 7 :: answer 0 :: answer 6
                        :: answers_of [Event (CommandComplete 0 5 0 []);
                                       NotReadable 8;
                                       Event (IndexList 65535 0 [1; 0])]))
                  7 0
                  [Event (CommandComplete 0 5 0 []);
                   NotReadable 8;
                   Event (IndexList 65535 0 [1; 0])]
                  ltac:(lia) ltac:(lia)
                  ltac:(repeat constructor; vm_compute; intuition congruence)
                  eq_refl)).
  exists [Event (CommandComplete 0 5 0 []); NotReadable 8],
         (IndexList 65535 0 [1; 0]), [].
  repeat split; reflexivity.
Defined.

(** ** The index sequence and the bytes received *)

(** C2 does not hold of the code.  The kernel answers the request with an
    11-byte command-complete packet of the index-list command, status 0,
    whose [num_intf] is 1 although no index follows.  The watcher reads
    [index[0]] from the two bytes of [ev] behind the packet, which it
    never received: over a zeroed stack it finds interface 0 there and
    returns success, over a stack of 0xff bytes it does not and polls
    again.  With [num_intf] 0xffff and a target that is not found the
    scan leaves [ev] altogether. *)
Theorem index_scan_trusts_num_intf :
  returned
    (bt_vendor_wait_hcidev
       (World true 5 0 1 1 (fun _ => 0)
          [answer 7; answer 0; answer 6; poll_answer 1 POLLIN;
           read_answer [1; 0; 0; 0; 5; 0; 3; 0; 0; 1; 0]] []))
  = Some 0 /\
  blocked_in
    (bt_vendor_wait_hcidev
       (World true 5 0 1 1 (fun _ => 255)
          [answer 7; answer 0; answer 6; poll_answer 1 POLLIN;
           read_answer [1; 0; 0; 0; 5; 0; 3; 0; 0; 1; 0]] []))
  = Some (CPoll 7 POLLIN MGMT_EV_POLL_TIMEOUT) /\
  faulted
    (bt_vendor_wait_hcidev
       (World true 5 1 1 1 (fun _ => 0)
          [answer 7; answer 0; answer 6; poll_answer 1 POLLIN;
           read_answer [1; 0; 0; 0; 5; 0; 3; 0; 0; 255; 255]] []))
  = true.
Proof. repeat split; vm_compute; reflexivity. Qed.

(** ** The end-to-end scenarios of the specification *)

(** Scenario A: interface 1, both features off, the channel open as
    descriptor 5; the kernel reports index 1 as added; the device-down
    ioctl and the bind succeed: the callback reports success. *)
Example scenario_index_added :
  trace
    (final
       (bt_vendor_op BT_VND_OP_FW_CFG NullP
          (World true 5 1 0 0 (fun _ => 0)
             (answer 7 :: answer 0 :: answer 6
                :: answers_of [Event (IndexAdded 1)]
                ++ [answer 0; answer 0]) [])))
  = [ (CSocket PF_BLUETOOTH SOCK_RAW BTPROTO_HCI, 7);
      (CBind 7 AF_BLUETOOTH HCI_DEV_NONE HCI_CHANNEL_CONTROL, 0);
      (CWrite 7 [3; 0; 255; 255; 0; 0], 6);
      (CPoll 7 POLLIN MGMT_EV_POLL_TIMEOUT, 1);
      (CRead 7 1030, 6);
      (CClose 7, 0);
      (CIoctl 5 IOCTL_HCIDEVDOWN 1, 0);
      (CBind 5 AF_BLUETOOTH 1 HCI_CHANNEL_USER, 0);
      (CCallback fwcfg_cb BT_VND_OP_RESULT_SUCCESS, 0) ].
Proof. vm_compute. reflexivity. Qed.

(** Scenario B: the kernel reports another index, then nothing within
    the timeout: the control socket is closed and the callback reports
    failure. *)
Example scenario_timeout :
  trace
    (final
       (bt_vendor_op BT_VND_OP_FW_CFG NullP
          (World true 5 1 0 0 (fun _ => 0)
             (answer 7 :: answer 0 :: answer 6
                :: answers_of [Event (IndexAdded 0); PollTimeout]) [])))
  = [ (CSocket PF_BLUETOOTH SOCK_RAW BTPROTO_HCI, 7);
      (CBind 7 AF_BLUETOOTH HCI_DEV_NONE HCI_CHANNEL_CONTROL, 0);
      (CWrite 7 [3; 0; 255; 255; 0; 0], 6);
      (CPoll 7 POLLIN MGMT_EV_POLL_TIMEOUT, 1);
      (CRead 7 1030, 6);
      (CPoll 7 POLLIN MGMT_EV_POLL_TIMEOUT, 0);
      (CClose 7, 0);
      (CCallback fwcfg_cb BT_VND_OP_RESULT_FAIL, 0) ].
Proof. vm_compute. reflexivity. Qed.

(** Scenario C: power-on with the radio-kill feature on and the hook
    off: one unblock, no hook request. *)
Example scenario_power_on :
  bt_vendor_op BT_VND_OP_POWER_CTRL (IntP BT_VND_PWR_ON)
    (World true 5 1 1 0 (fun _ => 0) [answer 7; answer 8] [])
  = Done (0, IntP BT_VND_PWR_ON)
      (World true 5 1 1 0 (fun _ => 0) []
         [ (COpen "/dev/rfkill" O_WRONLY, 7);
           (CWrite 7 [0; 0; 0; 0; 2; 3; 0; 0], 8);
           (CClose 7, 0) ]).
Proof. reflexivity. Qed.

(** * Further properties of the code *)

(** ** The channel: open, close and their compositions *)

(** X1. Closing the channel always returns 0 and leaves no descriptor
    recorded.  It closes the recorded descriptor, once, when there is
    one, and makes no call when there is none; it takes no answer from
    the kernel, and closing again changes nothing. *)
Theorem bt_vendor_close_idempotent (p : param) (w : world) :
  exists w1,
    bt_vendor_close p w = Done (0, p) w1 /\
    bt_vendor_fd w1 = -1 /\
    emitted w w1
      (if bt_vendor_fd w =? -1 then []
       else [(CClose (bt_vendor_fd w), 0)]) /\
    script w1 = script w /\
    bt_vendor_close p w1 = Done (0, p) w1.
Proof.
  unfold bt_vendor_close, get, sys_close, action, modify, mbind', mreturn.
  destruct (Z.eqb_spec (bt_vendor_fd w) (-1)) as [E|E]; cbn.
  - exists w. rewrite E. cbn. repeat split; auto using emitted_refl.
  - eexists. split; [reflexivity|]. cbn. repeat split.
Qed.

(** X2. When the socket cannot be created the channel-open request
    returns -1, whatever its parameter (it is not dereferenced): the
    recorded descriptor and the caller's array stay as they were. *)
Theorem bt_vendor_open_failure
  (p : param) (w : world) (r : response) (s : list response) :
  script w = r :: s ->
  ret r < 0 ->
  exists w',
    bt_vendor_open p w = Done (-1, p) w' /\
    bt_vendor_fd w' = bt_vendor_fd w /\
    script w' = s /\
    emitted w w' [(CSocket AF_BLUETOOTH SOCK_RAW BTPROTO_HCI, ret r)].
Proof.
  intros Hs Hr.
  unfold bt_vendor_open, sys_socket, mbind', mreturn.
  rewrite (syscall_cons _ _ _ _ Hs).
  destruct (Z.ltb_spec (ret r) 0) as [_|?]; [|lia].
  eexists. split; [reflexivity|]. repeat split.
Qed.

Lemma bt_vendor_open_failure_witness :
  exists w',
    bt_vendor_open NullP (sample_world [answer (-1); answer 3])
    = Done (-1, NullP) w' /\
    bt_vendor_fd w' = 5 /\
    script w' = [answer 3] /\
    emitted (sample_world [answer (-1); answer 3]) w'
      [(CSocket AF_BLUETOOTH SOCK_RAW BTPROTO_HCI, -1)].
Proof.
  apply (bt_vendor_open_failure NullP (sample_world [answer (-1); answer 3])
           (answer (-1)) [answer 3]).
  - reflexivity.
  - simpl. lia.
Defined.

Lemma bt_vendor_open_success
  (w : world) (a : list Z) (r : response) (s : list response) :
  script w = r :: s ->
  0 <= ret r ->
  (CH_ACL_IN < length a)%nat ->
  bt_vendor_open (FdArrayP a) w
  = Done (1, FdArrayP (<[CH_ACL_IN := ret r]>
                         (<[CH_ACL_OUT := ret r]>
                            (<[CH_EVT := ret r]> (<[CH_CMD := ret r]> a)))))
      (set_fd (ret r)
         (log (CSocket AF_BLUETOOTH SOCK_RAW BTPROTO_HCI) (ret r)
            (set_script s w))).
Proof.
  intros Hs Hr Hlen.
  unfold bt_vendor_open, sys_socket, modify, mbind', mreturn.
  rewrite (syscall_cons _ _ _ _ Hs).
  destruct (Z.ltb_spec (ret r) 0) as [?|_]; [lia|].
  cbn [ret]. apply Nat.ltb_lt in Hlen. now rewrite Hlen.
Qed.

(** X3. A successful channel-open followed by a channel-close through
    the dispatcher: the close closes exactly the descriptor the open
    created and forgets it, but the four slots of the caller's array
    still hold the closed descriptor. *)
Theorem open_then_close
  (w : world) (a : list Z) (r : response) (s : list response) :
  script w = r :: s ->
  0 <= ret r ->
  (CH_ACL_IN < length a)%nat ->
  exists a' w1 w2,
    bt_vendor_op BT_VND_OP_USERIAL_OPEN (FdArrayP a) w
    = Done (1, FdArrayP a') w1 /\
    bt_vendor_op BT_VND_OP_USERIAL_CLOSE (FdArrayP a') w1
    = Done (0, FdArrayP a') w2 /\
    emitted w w2 [(CSocket AF_BLUETOOTH SOCK_RAW BTPROTO_HCI, ret r);
                  (CClose (ret r), 0)] /\
    bt_vendor_fd w2 = -1 /\
    Forall (fun ch => a' !! ch = Some (ret r))
      [CH_CMD; CH_EVT; CH_ACL_OUT; CH_ACL_IN].
Proof.
  intros Hs Hr Hlen. cbn [bt_vendor_op].
  rewrite (bt_vendor_open_success w a r s Hs Hr Hlen).
  eexists _, _, _. split; [reflexivity|].
  unfold bt_vendor_close, get, sys_close, action, modify, mbind', mreturn.
  cbn [bt_vendor_fd set_fd].
  destruct (Z.eqb_spec (ret r) (-1)) as [?|_]; [lia|]. cbn [negb].
  split; [reflexivity|]. split; [|split; [reflexivity|]].
  - unfold emitted. cbn. now rewrite <- app_assoc.
  - unfold CH_ACL_IN, CH_ACL_OUT, CH_EVT, CH_CMD in *.
    destruct a as [|a0 [|a1 [|a2 [|a3 l]]]]; cbn in Hlen; try lia.
    repeat constructor.
Qed.

Lemma open_then_close_witness :
  exists a' w1 w2,
    bt_vendor_op BT_VND_OP_USERIAL_OPEN (FdArrayP [0; 0; 0; 0])
      (World true (-1) 0 1 1 (fun _ => 0) [answer 9] [])
    = Done (1, FdArrayP a') w1 /\
    bt_vendor_op BT_VND_OP_USERIAL_CLOSE (FdArrayP a') w1
    = Done (0, FdArrayP a') w2 /\
    emitted (World true (-1) 0 1 1 (fun _ => 0) [answer 9] []) w2
      [(CSocket AF_BLUETOOTH SOCK_RAW BTPROTO_HCI, 9); (CClose 9, 0)] /\
    bt_vendor_fd w2 = -1 /\
    Forall (fun ch => a' !! ch = Some 9)
      [CH_CMD; CH_EVT; CH_ACL_OUT; CH_ACL_IN].
Proof.
  apply (open_then_close (World true (-1) 0 1 1 (fun _ => 0) [answer 9] [])
           [0; 0; 0; 0] (answer 9) []).
  - reflexivity.
  - simpl. lia.
  - unfold CH_ACL_IN. simpl. lia.
Defined.

(** X4. Two successful channel-opens followed by one close: only the
    descriptor of the second open is closed; the first one is neither
    closed nor recorded any more. *)
Theorem reopen_leaks_descriptor
  (w : world) (a : list Z) (r1 r2 : response) (s : list response) :
  script w = r1 :: r2 :: s ->
  0 <= ret r1 -> 0 <= ret r2 ->
  (CH_ACL_IN < length a)%nat ->
  exists a1 w1 a2 w2 w3,
    bt_vendor_open (FdArrayP a) w = Done (1, FdArrayP a1) w1 /\
    bt_vendor_open (FdArrayP a1) w1 = Done (1, FdArrayP a2) w2 /\
    bt_vendor_close (FdArrayP a2) w2 = Done (0, FdArrayP a2) w3 /\
    emitted w w3 [(CSocket AF_BLUETOOTH SOCK_RAW BTPROTO_HCI, ret r1);
                  (CSocket AF_BLUETOOTH SOCK_RAW BTPROTO_HCI, ret r2);
                  (CClose (ret r2), 0)] /\
    bt_vendor_fd w3 = -1.
Proof.
  intros Hs H1 H2 Hlen.
  rewrite (bt_vendor_open_success w a r1 (r2 :: s) Hs H1 Hlen).
  eexists _, _, _, _, _. split; [reflexivity|]. split.
  { apply bt_vendor_open_success with (s := s);
      [reflexivity|exact H2|rewrite !length_insert; exact Hlen]. }
  unfold bt_vendor_close, get, sys_close, action, modify, mbind', mreturn.
  cbn [bt_vendor_fd set_fd].
  destruct (Z.eqb_spec (ret r2) (-1)) as [?|_]; [lia|]. cbn [negb].
  split; [reflexivity|]. split; [|reflexivity].
  unfold emitted. cbn. now rewrite <- !app_assoc.
Qed.

Lemma reopen_leaks_descriptor_witness :
  exists a1 w1 a2 w2 w3,
    bt_vendor_open (FdArrayP [0; 0; 0; 0])
      (sample_world [answer 8; answer 9]) = Done (1, FdArrayP a1) w1 /\
    bt_vendor_open (FdArrayP a1) w1 = Done (1, FdArrayP a2) w2 /\
    bt_vendor_close (FdArrayP a2) w2 = Done (0, FdArrayP a2) w3 /\
    emitted (sample_world [answer 8; answer 9]) w3
      [(CSocket AF_BLUETOOTH SOCK_RAW BTPROTO_HCI, 8);
       (CSocket AF_BLUETOOTH SOCK_RAW BTPROTO_HCI, 9);
       (CClose 9, 0)] /\
    bt_vendor_fd w3 = -1.
Proof.
  apply (reopen_leaks_descriptor (sample_world [answer 8; answer 9])
           [0; 0; 0; 0] (answer 8) (answer 9) []).
  - reflexivity.
  - simpl. lia.
  - simpl. lia.
  - unfold CH_ACL_IN. simpl. lia.
Defined.

(** ** The radio-kill switch and the power transitions *)

(** X5. When the kill-switch device cannot be opened the radio-kill
    operation returns -1 after that one call: nothing is written,
    nothing is closed, and the kernel's next answer is left in place. *)
Theorem bt_vendor_rfkill_open_failure
  (block : Z) (w : world) (r : response) (s : list response) :
  script w = r :: s ->
  ret r < 0 ->
  exists w',
    bt_vendor_rfkill block w = Done (-1) w' /\
    emitted w w' [(COpen "/dev/rfkill" O_WRONLY, ret r)] /\
    script w' = s.
Proof.
  intros Hs Hr.
  unfold bt_vendor_rfkill, sys_open, mbind', mreturn.
  rewrite (syscall_cons _ _ _ _ Hs).
  destruct (Z.ltb_spec (ret r) 0) as [_|?]; [|lia].
  eexists. split; [reflexivity|]. now split.
Qed.

Lemma bt_vendor_rfkill_open_failure_witness :
  exists w',
    bt_vendor_rfkill 1 (sample_world [answer (-1); answer 8]) = Done (-1) w' /\
    emitted (sample_world [answer (-1); answer 8]) w'
      [(COpen "/dev/rfkill" O_WRONLY, -1)] /\
    script w' = [answer 8].
Proof.
  apply (bt_vendor_rfkill_open_failure 1
           (sample_world [answer (-1); answer 8]) (answer (-1)) [answer 8]).
  - reflexivity.
  - simpl. lia.
Defined.

Lemma bt_vendor_rfkill_status (block : Z) (w w' : world) (status : Z) :
  bt_vendor_rfkill block w = Done status w' ->
  status = -1 \/ status = 0 \/ status = 1.
Proof.
  unfold bt_vendor_rfkill, sys_open, sys_write, sys_close, action,
    mbind', mreturn, syscall.
  destruct (script w) as [|r1 s1]; [discriminate|]; cbn.
  destruct (ret r1 <? 0); [intros [= <- _]; auto|].
  destruct s1 as [|r2 s2]; [discriminate|]; cbn.
  destruct (ret r2 <? 0); cbn; intros [= <- _]; auto.
Qed.

Lemma bt_vendor_hw_cfg_status (stop : Z) (w w' : world) (status : Z) :
  bt_vendor_hw_cfg stop w = Done status w' -> status = 0 \/ status = 1.
Proof.
  intros H.
  destruct (bt_vendor_hw_cfg_cases stop w)
    as [[_ E]|[(_ & _ & E)|(_ & r & s & _ & E)]];
    rewrite E in H; try discriminate; injection H as <- _; auto.
  destruct (ret r <? 0); auto.
Qed.

(** X6. The status of a power-control dispatch is -1, 0 or 1, and the
    parameter comes back unchanged. *)
Theorem power_ctrl_status_range
  (p p' : param) (w w' : world) (status : Z) :
  bt_vendor_op BT_VND_OP_POWER_CTRL p w = Done (status, p') w' ->
  (status = -1 \/ status = 0 \/ status = 1) /\ p' = p.
Proof.
  cbn [bt_vendor_op]. unfold get. unfold mbind' at 1.
  destruct ((rfkill_en w =? 0) || is_null p);
    [intros [= <- <- _]; auto|].
  destruct p as [|v| |]; try discriminate.
  destruct (v =? BT_VND_PWR_ON); intros H;
    apply bind_inv in H as (s1 & w1 & H1 & H);
    destruct (s1 =? 0);
    try (apply bind_inv in H as (s2 & w2 & H2 & H));
    injection H as <- <- _; (split; [|reflexivity]).
  - apply bt_vendor_hw_cfg_status in H2. intuition.
  - eauto using bt_vendor_rfkill_status.
  - eauto using bt_vendor_rfkill_status.
  - apply bt_vendor_hw_cfg_status in H1. intuition.
Qed.

Lemma power_ctrl_status_range_witness :
  (-1 = -1 \/ -1 = 0 \/ -1 = 1) /\ IntP BT_VND_PWR_ON = IntP BT_VND_PWR_ON.
Proof.
  apply (power_ctrl_status_range (IntP BT_VND_PWR_ON) (IntP BT_VND_PWR_ON)
           (sample_world [answer (-1)])
           (final (bt_vendor_op BT_VND_OP_POWER_CTRL (IntP BT_VND_PWR_ON)
                     (sample_world [answer (-1)])))
           (-1)).
  reflexivity.
Defined.

Lemma bt_vendor_rfkill_keeps (block : Z) :
  keeps (fun _ => True) (bt_vendor_rfkill block).
Proof.
  unfold bt_vendor_rfkill, sys_open, sys_write, sys_close.
  repeat (keeps_step; cbv zeta); exact I.
Qed.

(** X7. With the hook feature off, a handled power transition is exactly
    the radio-kill operation: unblock for power-on, block for any other
    power state, with the same status and the same calls. *)
Theorem power_ctrl_without_hook (w : world) (v : Z) :
  rfkill_en w <> 0 ->
  bt_hwcfg_en w = 0 ->
  bt_vendor_op BT_VND_OP_POWER_CTRL (IntP v) w
  = (status <- bt_vendor_rfkill (if v =? BT_VND_PWR_ON then 0 else 1) ;;
     mreturn (status, IntP v)) w.
Proof.
  intros Hr Hh. cbn [bt_vendor_op]. unfold get. unfold mbind' at 1.
  destruct (Z.eqb_spec (rfkill_en w) 0) as [?|_]; [contradiction|].
  cbn [orb is_null].
  destruct (v =? BT_VND_PWR_ON).
  - unfold mbind' at 1 3.
    pose proof (bt_vendor_rfkill_keeps 0 w) as K.
    destruct (bt_vendor_rfkill 0 w) as [s1 w1| |]; try reflexivity.
    destruct K as ((_ & _ & _ & _ & E) & _).
    destruct (s1 =? 0) eqn:Es; [|reflexivity].
    apply Z.eqb_eq in Es. subst s1.
    destruct (bt_vendor_hw_cfg_cases 0 w1)
      as [[_ E1]|[(N & _)|(N & _)]]; try congruence.
    unfold mbind'. now rewrite E1.
  - unfold mbind' at 1.
    destruct (bt_vendor_hw_cfg_cases 1 w)
      as [[_ E1]|[(N & _)|(N & _)]]; try congruence.
    rewrite E1. reflexivity.
Qed.

Lemma power_ctrl_without_hook_witness :
  bt_vendor_op BT_VND_OP_POWER_CTRL (IntP BT_VND_PWR_OFF)
    (World true 5 0 1 0 (fun _ => 0) [answer 7; answer 8] [])
  = (status <- bt_vendor_rfkill 1 ;; mreturn (status, IntP BT_VND_PWR_OFF))
      (World true 5 0 1 0 (fun _ => 0) [answer 7; answer 8] []).
Proof.
  apply (power_ctrl_without_hook
           (World true 5 0 1 0 (fun _ => 0) [answer 7; answer 8] [])
           BT_VND_PWR_OFF).
  - simpl. lia.
  - reflexivity.
Defined.

(** ** The bring-up sequence, path by path *)

Lemma invoke_null (cb : callback) (result : bt_vendor_op_result_t)
  (w : world) :
  bt_vendor_callbacks w = false -> invoke cb result w = Fault w.
Proof. intros H. unfold invoke. now rewrite H. Qed.

Lemma keeps_invoke (P : call -> Prop) (cb : callback)
  (result : bt_vendor_op_result_t) :
  P (CCallback cb result) -> keeps P (invoke cb result).
Proof.
  intros H w. unfold invoke.
  destruct (bt_vendor_callbacks w); [now apply keeps_action|].
  apply quiet_refl.
Qed.

(** X8. A firmware-config request made while no channel is open makes no
    kernel call: its only call is the failure callback, and the status
    returned to the caller is 0 all the same. *)
Theorem fw_cfg_channel_not_open (p : param) (w : world) :
  bt_vendor_callbacks w = true ->
  bt_vendor_fd w = -1 ->
  bt_vendor_op BT_VND_OP_FW_CFG p w
  = Done (0, p) (log (CCallback fwcfg_cb BT_VND_OP_RESULT_FAIL) 0 w).
Proof.
  intros Hcb Hfd. cbn [bt_vendor_op].
  unfold bt_vendor_fw_cfg, fw_cfg_failure, get, mbind', mreturn.
  rewrite Hfd. cbn. now rewrite invoke_registered.
Qed.

Lemma fw_cfg_channel_not_open_witness :
  bt_vendor_op BT_VND_OP_FW_CFG NullP
    (World true (-1) 0 1 1 (fun _ => 0) [answer 7] [])
  = Done (0, NullP)
      (log (CCallback fwcfg_cb BT_VND_OP_RESULT_FAIL) 0
         (World true (-1) 0 1 1 (fun _ => 0) [answer 7] [])).
Proof.
  apply (fw_cfg_channel_not_open NullP
           (World true (-1) 0 1 1 (fun _ => 0) [answer 7] [])).
  - reflexivity.
  - reflexivity.
Defined.

Lemma not_callback_not_in (evs : list (call * Z)) (cb : callback)
  (result : bt_vendor_op_result_t) :
  Forall (fun e => not_callback (fst e)) evs ->
  ~ In (CCallback cb result) (map fst evs).
Proof.
  induction 1 as [|[c r] l H _ IH]; cbn; [tauto|].
  intros [E|E]; [|tauto]. subst c. discriminate H.
Qed.

(** X9. A bring-up that reports success has, as its last three calls,
    the device-down ioctl on the session descriptor for the target
    interface, answered 0, the bind of that descriptor to the user
    channel of the interface, answered without error, and the success
    callback; before them the index watcher ran and returned 0. *)
Theorem fw_cfg_success_path
  (w w' : world) (evs : list (call * Z)) :
  bt_vendor_callbacks w = true ->
  bt_vendor_fw_cfg w = Done tt w' ->
  emitted w w' evs ->
  In (CCallback fwcfg_cb BT_VND_OP_RESULT_SUCCESS) (map fst evs) ->
  bt_vendor_fd w <> -1 /\
  exists w1 pre r,
    bt_vendor_wait_hcidev w = Done 0 w1 /\
    emitted w w1 pre /\
    0 <= r /\
    evs = pre ++
      [ (CIoctl (bt_vendor_fd w) IOCTL_HCIDEVDOWN (hci_interface w), 0);
        (CBind (bt_vendor_fd w) AF_BLUETOOTH (hci_interface w mod 65536)
           HCI_CHANNEL_USER, r);
        (CCallback fwcfg_cb BT_VND_OP_RESULT_SUCCESS, 0) ].
Proof.
  intros Hcb H Hev Hin.
  assert (Fail : forall w0 pre,
             quiet not_callback w w0 -> emitted w w0 pre ->
             fw_cfg_failure w0 = Done tt w' -> False).
  { intros w0 pre Q E F. unfold fw_cfg_failure in F.
    rewrite invoke_registered in F
      by (destruct Q as ((-> & _) & _); exact Hcb).
    injection F as <-.
    destruct Q as (_ & _ & l & El & Fl).
    assert (evs = l ++ [(CCallback fwcfg_cb BT_VND_OP_RESULT_FAIL, 0)]).
    { apply (emitted_inj w (log (CCallback fwcfg_cb BT_VND_OP_RESULT_FAIL) 0 w0));
        [exact Hev|]. unfold emitted in *. cbn. rewrite El.
      now rewrite app_assoc. }
    subst evs. rewrite map_app in Hin. apply in_app_or in Hin as [Hin|Hin].
    - now apply not_callback_not_in in Hin.
    - cbn in Hin. destruct Hin as [?|[]]. discriminate. }
  revert H. unfold bt_vendor_fw_cfg, get. unfold mbind' at 1.
  destruct (Z.eqb_spec (bt_vendor_fd w) (-1)) as [Efd|Efd].
  { intros F. exfalso.
    exact (Fail w [] (quiet_refl _ w) (emitted_refl w) F). }
  intros H. split; [exact Efd|].
  unfold mbind' at 1 in H.
  apply bind_inv in H as (r1 & w1 & H1 & H).
  assert (K1 : quiet not_callback w w1).
  { pose proof (bt_vendor_wait_hcidev_keeps not_callback) as K.
    specialize (K ltac:(reflexivity) ltac:(reflexivity) ltac:(reflexivity)
                  ltac:(reflexivity) ltac:(reflexivity) ltac:(reflexivity) w).
    now rewrite H1 in K. }
  pose proof K1 as (G1 & L1 & pre & E1 & F1).
  destruct (Z.eqb_spec r1 0) as [->|N1]; cbn [negb] in H;
    [|exfalso; exact (Fail w1 pre K1 E1 H)].
  unfold sys_ioctl in H. unfold mbind' at 1 2 in H. unfold syscall in H.
  destruct (script w1) as [|r2 s2] eqn:Es1; [discriminate|].
  cbn [mreturn] in H.
  set (w2 := log _ (ret r2) _) in H.
  assert (Q2 : quiet not_callback w w2).
  { apply (quiet_trans _ w w1); [exact K1|].
    apply (quiet_trans _ w1 (set_script s2 w1)); [|now apply quiet_log].
    repeat split; cbn; auto; [rewrite Es1; cbn; lia|].
    exists []. split; [|constructor]. unfold emitted; cbn.
    now rewrite app_nil_r. }
  destruct (Z.eqb_spec (ret r2) 0) as [E2|N2]; cbn [negb] in H;
    [|exfalso; pose proof Q2 as (_ & _ & l & El & _);
      exact (Fail w2 l Q2 El H)].
  unfold sys_bind in H. unfold mbind' at 1 2 in H. unfold syscall in H.
  cbn [script w2 log set_script] in H.
  destruct s2 as [|r3 s3]; [discriminate|].
  cbn [mreturn] in H.
  set (w3 := log _ (ret r3) _) in H.
  assert (Q3 : quiet not_callback w w3).
  { apply (quiet_trans _ w w2); [exact Q2|].
    apply (quiet_trans _ w2 (set_script s3 w2)); [|now apply quiet_log].
    repeat split; cbn; auto.
    exists []. split; [|constructor]. unfold emitted; cbn.
    now rewrite app_nil_r. }
  destruct (Z.ltb_spec (ret r3) 0) as [N3|P3];
    [exfalso; pose proof Q3 as (_ & _ & l & El & _);
     exact (Fail w3 l Q3 El H)|].
  rewrite invoke_registered in H
    by (destruct Q3 as ((-> & _) & _); exact Hcb).
  injection H as <-.
  exists w1, pre, (ret r3). split; [exact H1|]. split; [exact E1|].
  split; [exact P3|].
  eapply emitted_inj; [exact Hev|].
  unfold emitted in *. cbn. rewrite E1, E2.
  destruct G1 as (_ & Gfd & Ghci & _).
  now rewrite <- !app_assoc.
Qed.

Lemma fw_cfg_success_path_witness :
  bt_vendor_fd scenario_world <> -1 /\
  exists w1 pre r,
    bt_vendor_wait_hcidev scenario_world = Done 0 w1 /\
    emitted scenario_world w1 pre /\
    0 <= r /\
    trace (final (bt_vendor_fw_cfg scenario_world)) = pre ++
      [ (CIoctl 5 IOCTL_HCIDEVDOWN 1, 0);
        (CBind 5 AF_BLUETOOTH (1 mod 65536) HCI_CHANNEL_USER, r);
        (CCallback fwcfg_cb BT_VND_OP_RESULT_SUCCESS, 0) ].
Proof.
  apply (fw_cfg_success_path scenario_world
           (final (bt_vendor_fw_cfg scenario_world))
           (trace (final (bt_vendor_fw_cfg scenario_world)))).
  - reflexivity.
  - vm_compute. reflexivity.
  - vm_compute. reflexivity.
  - vm_compute. do 8 right. left. reflexivity.
Defined.

Lemma bt_vendor_fw_cfg_keeps (P : call -> Prop) :
  (forall c, P c) -> keeps P bt_vendor_fw_cfg.
Proof.
  intros HP. unfold bt_vendor_fw_cfg, fw_cfg_failure, sys_ioctl, sys_bind.
  repeat (lazymatch goal with
          | |- keeps _ (invoke _ _) => apply keeps_invoke
          | |- keeps _ bt_vendor_wait_hcidev =>
              apply bt_vendor_wait_hcidev_keeps; intros
          | _ => keeps_step
          end; cbv zeta); auto.
Qed.

(** X10. However the bring-up sequence ends (returned, blocked in a
    kernel call, or stopped by undefined behaviour), it leaves the
    file-scope variables as they were: the session descriptor stays
    recorded after a failure, and the flags and the callback table are
    not touched. *)
Theorem fw_cfg_keeps_state (w : world) :
  same_globals w (final (bt_vendor_fw_cfg w)).
Proof.
  pose proof (bt_vendor_fw_cfg_keeps (fun _ => True) (fun _ => I) w) as K.
  destruct (bt_vendor_fw_cfg w) as [a w1|c w1|w1]; cbn.
  - now destruct K.
  - now destruct K as ((? & _) & _).
  - now destruct K.
Qed.

(** X11. After [bt_vendor_cleanup] no dispatch of an opcode that answers
    through a callback (firmware config, SCO config, low-power mode,
    audio state, epilog) returns: the callback table is NULL and the
    code calls through it unchecked. *)
Theorem callback_after_cleanup
  (opcode : bt_vendor_opcode_t) (p : param) (w : world) :
  calls_back opcode = true ->
  returned ((bt_vendor_cleanup ;;; bt_vendor_op opcode p) w) = None.
Proof.
  intros Hop. unfold bt_vendor_cleanup, modify. unfold mbind' at 1.
  set (w0 := set_callbacks false w).
  assert (Hcb : bt_vendor_callbacks w0 = false) by reflexivity.
  clearbody w0.
  assert (Stub : forall cb result,
             returned ((invoke cb result ;;; mreturn (0, p)) w0) = None).
  { intros cb result. unfold mbind'. now rewrite invoke_null. }
  destruct opcode; try discriminate Hop; cbn [bt_vendor_op]; auto.
  (* the bring-up sequence *)
  rewrite returned_bind.
  enough (E : returned (bt_vendor_fw_cfg w0) = None)
    by (destruct (bt_vendor_fw_cfg w0); [discriminate|reflexivity..]).
  assert (Null : forall w1, quiet (fun _ => True) w0 w1 ->
                            returned (fw_cfg_failure w1) = None
                            /\ returned (invoke fwcfg_cb
                                           BT_VND_OP_RESULT_SUCCESS w1) = None).
  { intros w1 ((E & _) & _). unfold fw_cfg_failure.
    rewrite !invoke_null by congruence. now split. }
  unfold bt_vendor_fw_cfg, get. unfold mbind' at 1.
  destruct (bt_vendor_fd w0 =? -1);
    [apply (Null w0), quiet_refl|].
  unfold mbind' at 1. rewrite returned_bind.
  pose proof (bt_vendor_wait_hcidev_keeps (fun _ => True)
                ltac:(intros; exact I) ltac:(intros; exact I)
                ltac:(intros; exact I) ltac:(intros; exact I)
                ltac:(intros; exact I) ltac:(intros; exact I) w0) as K1.
  destruct (bt_vendor_wait_hcidev w0) as [r1 w1| |]; try reflexivity.
  destruct (negb (r1 =? 0)); [now apply Null|].
  rewrite returned_bind.
  assert (K2 : keeps (fun _ => True)
                 (sys_ioctl (bt_vendor_fd w0) IOCTL_HCIDEVDOWN
                    (hci_interface w0)))
    by (unfold sys_ioctl; repeat keeps_step; exact I).
  specialize (K2 w1).
  destruct (sys_ioctl _ _ _ w1) as [r2 w2| |]; try reflexivity.
  assert (Q2 : quiet (fun _ => True) w0 w2) by eauto using quiet_trans.
  destruct (negb (r2 =? 0)); [now apply Null|].
  rewrite returned_bind.
  assert (K3 : keeps (fun _ => True)
                 (sys_bind (bt_vendor_fd w0) AF_BLUETOOTH
                    (hci_interface w0 mod 65536) HCI_CHANNEL_USER))
    by (unfold sys_bind; repeat keeps_step; exact I).
  specialize (K3 w2).
  destruct (sys_bind _ _ _ _ w2) as [r3 w3| |]; try reflexivity.
  assert (Q3 : quiet (fun _ => True) w0 w3) by eauto using quiet_trans.
  destruct (r3 <? 0); now apply Null.
Qed.

Lemma callback_after_cleanup_witness :
  returned ((bt_vendor_cleanup ;;; bt_vendor_op BT_VND_OP_FW_CFG NullP)
              scenario_world) = None.
Proof.
  apply (callback_after_cleanup BT_VND_OP_FW_CFG NullP scenario_world).
  reflexivity.
Defined.

(** ** The index watcher, path by path *)

(** X12. When the control socket cannot be created the index watcher
    returns -1 after that one call; there is nothing to close and no
    close is made. *)
Theorem wait_hcidev_socket_failure
  (w : world) (r : response) (s : list response) :
  script w = r :: s ->
  ret r < 0 ->
  bt_vendor_wait_hcidev w
  = Done (-1) (log (CSocket PF_BLUETOOTH SOCK_RAW BTPROTO_HCI) (ret r)
                 (set_script s w)).
Proof.
  intros Hs Hr. unfold bt_vendor_wait_hcidev, sys_socket, mbind', mreturn.
  rewrite (syscall_cons _ _ _ _ Hs).
  now destruct (Z.ltb_spec (ret r) 0) as [_|?]; [|lia].
Qed.

Lemma wait_hcidev_socket_failure_witness :
  bt_vendor_wait_hcidev (sample_world [answer (-1); answer 0])
  = Done (-1) (log (CSocket PF_BLUETOOTH SOCK_RAW BTPROTO_HCI) (-1)
                 (set_script [answer 0]
                    (sample_world [answer (-1); answer 0]))).
Proof.
  apply (wait_hcidev_socket_failure (sample_world [answer (-1); answer 0])
           (answer (-1)) [answer 0]).
  - reflexivity.
  - simpl. lia.
Defined.

Lemma request_bytes (ev : list Z) :
  (6 <= length ev)%nat ->
  take (sizeof_mgmt_pkt - Z.to_nat MGMT_EV_SIZE_MAX)
    (store_u16 off_len 0
       (store_u16 off_index HCI_DEV_NONE
          (store_u16 off_opcode MGMT_OP_INDEX_LIST ev)))
  = [3; 0; 255; 255; 0; 0].
Proof.
  intros H.
  destruct ev as [|b0 [|b1 [|b2 [|b3 [|b4 [|b5 l]]]]]]; cbn in H; try lia.
  reflexivity.
Qed.

(** X13. Once the control socket is created and bound, the third call of
    the index watcher is the write of the 6-byte index-list request
    (opcode 0x0003, index 0xffff, length 0), whatever the stack held
    under [ev].  When that write does not return 6, the watcher closes
    the socket and returns -1 without polling. *)
Theorem wait_hcidev_request
  (w : world) (r1 r2 r3 : response) (s : list response) :
  script w = r1 :: r2 :: r3 :: s ->
  0 <= ret r1 -> 0 <= ret r2 ->
  (exists evs,
     emitted w (final (bt_vendor_wait_hcidev w))
       ([ (CSocket PF_BLUETOOTH SOCK_RAW BTPROTO_HCI, ret r1);
          (CBind (ret r1) AF_BLUETOOTH HCI_DEV_NONE HCI_CHANNEL_CONTROL,
           ret r2);
          (CWrite (ret r1) [3; 0; 255; 255; 0; 0], ret r3) ] ++ evs)) /\
  (ret r3 <> 6 ->
   exists w',
     bt_vendor_wait_hcidev w = Done (-1) w' /\
     script w' = s /\
     emitted w w'
       [ (CSocket PF_BLUETOOTH SOCK_RAW BTPROTO_HCI, ret r1);
         (CBind (ret r1) AF_BLUETOOTH HCI_DEV_NONE HCI_CHANNEL_CONTROL,
          ret r2);
         (CWrite (ret r1) [3; 0; 255; 255; 0; 0], ret r3);
         (CClose (ret r1), 0) ]).
Proof.
  intros Hs H1 H2.
  set (w1 := log (CSocket PF_BLUETOOTH SOCK_RAW BTPROTO_HCI) (ret r1)
               (set_script (r2 :: r3 :: s) w)).
  set (w2 := log (CBind (ret r1) AF_BLUETOOTH HCI_DEV_NONE
                    HCI_CHANNEL_CONTROL) (ret r2)
               (set_script (r3 :: s) w1)).
  set (w3 := log (CWrite (ret r1) [3; 0; 255; 255; 0; 0]) (ret r3)
               (set_script s w2)).
  set (ev := store_u16 off_len 0
               (store_u16 off_index HCI_DEV_NONE
                  (store_u16 off_opcode MGMT_OP_INDEX_LIST
                     (uninitialised_ev w2)))).
  assert (E : bt_vendor_wait_hcidev w
              = (status <- (if negb (ret r3 =? 6) then mreturn (-1)
                            else wait_while (ret r1) ev) ;;
                 sys_close (ret r1) ;;; mreturn status) w3).
  { unfold bt_vendor_wait_hcidev.
    unfold sys_socket at 1. unfold mbind' at 1 2.
    rewrite (syscall_cons _ _ _ _ Hs). cbn [mreturn].
    destruct (Z.ltb_spec (ret r1) 0) as [?|_]; [lia|]. fold w1.
    unfold sys_bind at 1. unfold mbind' at 1 2.
    rewrite (syscall_cons _ r2 (r3 :: s) w1) by reflexivity.
    cbn [mreturn].
    destruct (Z.ltb_spec (ret r2) 0) as [?|_]; [lia|]. fold w2.
    unfold get at 1. unfold mbind' at 1. cbv zeta.
    unfold wait_request, sys_write. unfold mbind' at 1 2 3.
    rewrite (syscall_cons _ r3 s w2) by reflexivity.
    cbn [mreturn].
    rewrite request_bytes
      by (unfold uninitialised_ev; rewrite length_map, length_seq;
          change sizeof_mgmt_pkt with 1030%nat; lia).
    fold ev. fold w3. unfold mbind'. reflexivity. }
  assert (E3 : emitted w w3
                 [ (CSocket PF_BLUETOOTH SOCK_RAW BTPROTO_HCI, ret r1);
                   (CBind (ret r1) AF_BLUETOOTH HCI_DEV_NONE
                      HCI_CHANNEL_CONTROL, ret r2);
                   (CWrite (ret r1) [3; 0; 255; 255; 0; 0], ret r3) ]).
  { unfold emitted. cbn. now rewrite <- !app_assoc. }
  split.
  - assert (K : keeps (fun _ => True)
                  (status <- (if negb (ret r3 =? 6) then mreturn (-1)
                              else wait_while (ret r1) ev) ;;
                   sys_close (ret r1) ;;; mreturn status)).
    { unfold sys_close. repeat (keeps_step; cbv zeta); try exact I.
      apply wait_while_keeps; intros; exact I. }
    specialize (K w3). rewrite E.
    match type of K with match ?m with _ => _ end =>
      destruct m as [a w4|c w4|w4] end; cbn [final];
      [destruct K as (_ & _ & evs & Ev & _)
      |destruct K as ((_ & _ & evs & Ev & _) & _)
      |destruct K as (_ & _ & evs & Ev & _)];
      exists evs; eauto using emitted_app.
  - intros N. rewrite E. apply Z.eqb_neq in N. rewrite N. cbn [negb].
    unfold sys_close, action, mbind', mreturn.
    eexists. split; [reflexivity|]. split; [reflexivity|].
    unfold emitted. cbn. now rewrite <- !app_assoc.
Qed.

Lemma wait_hcidev_request_witness :
  (exists evs,
     emitted (World true 5 0 1 1 (fun i => Z.of_nat i)
                [answer 7; answer 0; answer 2] [])
       (final (bt_vendor_wait_hcidev
                 (World true 5 0 1 1 (fun i => Z.of_nat i)
                    [answer 7; answer 0; answer 2] [])))
       ([ (CSocket PF_BLUETOOTH SOCK_RAW BTPROTO_HCI, 7);
          (CBind 7 AF_BLUETOOTH HCI_DEV_NONE HCI_CHANNEL_CONTROL, 0);
          (CWrite 7 [3; 0; 255; 255; 0; 0], 2) ] ++ evs)) /\
  (2 <> 6 ->
   exists w',
     bt_vendor_wait_hcidev
       (World true 5 0 1 1 (fun i => Z.of_nat i)
          [answer 7; answer 0; answer 2] []) = Done (-1) w' /\
     script w' = [] /\
     emitted (World true 5 0 1 1 (fun i => Z.of_nat i)
                [answer 7; answer 0; answer 2] []) w'
       [ (CSocket PF_BLUETOOTH SOCK_RAW BTPROTO_HCI, 7);
         (CBind 7 AF_BLUETOOTH HCI_DEV_NONE HCI_CHANNEL_CONTROL, 0);
         (CWrite 7 [3; 0; 255; 255; 0; 0], 2);
         (CClose 7, 0) ]).
Proof.
  apply (wait_hcidev_request
           (World true 5 0 1 1 (fun i => Z.of_nat i)
              [answer 7; answer 0; answer 2] [])
           (answer 7) (answer 0) (answer 2) []).
  - reflexivity.
  - simpl. lia.
  - simpl. lia.
Defined.

Lemma examine_leave (ev : list Z) (target status : Z) :
  examine ev target = Some (Leave status) -> status = 0.
Proof.
  unfold examine.
  repeat match goal with
         | |- context [match ?x with _ => _ end] => destruct x
         end; congruence.
Qed.

Lemma wait_iteration_leave (fd : Z) (ev ev' : list Z) (w w' : world)
  (status : Z) :
  wait_iteration fd ev w = Done (Leave status, ev') w' ->
  status = 0 \/ status = -1.
Proof.
  unfold wait_iteration. intros H.
  apply bind_inv in H as (p & w1 & _ & H). revert H. cbv zeta.
  destruct (ret p =? -1); [intros [= <- _ _]; auto|].
  destruct (ret p =? 0); [intros [= <- _ _]; auto|].
  destruct (negb _); [|discriminate].
  intros H. apply bind_inv in H as ([n ev1] & w2 & _ & H). revert H.
  destruct (n <? 0); [intros [= <- _ _]; auto|].
  unfold get, mbind'.
  destruct (examine ev1 (hci_interface w2)) as [c|] eqn:E; [|discriminate].
  intros [= -> _ _]. left. eapply examine_leave, E.
Qed.

Lemma wait_loop_status (fuel : nat) :
  forall (fd : Z) (ev : list Z) (w w' : world) (status : Z),
    wait_loop fuel fd ev w = Done status w' ->
    status = 0 \/ status = -1.
Proof.
  induction fuel as [|fuel IH]; intros fd ev w w' status; [discriminate|].
  cbn [wait_loop]. intros H.
  apply bind_inv in H as ([c ev1] & w1 & H1 & H).
  destruct c as [|st]; [eauto|].
  injection H as <- _. eauto using wait_iteration_leave.
Qed.

(** X14. Whatever the kernel answers, well-formed or not, the index
    watcher returns only 0 or -1: every failure (socket, bind, request
    write, poll error, timeout, read error) is the same -1. *)
Theorem wait_hcidev_status_range (w w' : world) (status : Z) :
  bt_vendor_wait_hcidev w = Done status w' ->
  status = 0 \/ status = -1.
Proof.
  unfold bt_vendor_wait_hcidev. intros H.
  apply bind_inv in H as (fd & w1 & _ & H). revert H.
  destruct (fd <? 0); [intros [= <- _]; auto|].
  intros H. apply bind_inv in H as (r & w2 & _ & H). revert H.
  destruct (r <? 0).
  { unfold sys_close, action, mbind', mreturn. intros [= <- _]. auto. }
  unfold get at 1. unfold mbind' at 1. cbv zeta.
  intros H. apply bind_inv in H as (st & w3 & H3 & H).
  unfold sys_close, action, mbind', mreturn in H. injection H as <- _.
  revert H3. unfold wait_request. intros H.
  apply bind_inv in H as (wrote & w4 & _ & H). revert H.
  destruct (negb (wrote =? 6)); [intros [= <- _]; auto|].
  unfold wait_while, get. unfold mbind' at 1.
  apply wait_loop_status.
Qed.

Lemma wait_hcidev_status_range_witness : -1 = 0 \/ -1 = -1.
Proof.
  apply (wait_hcidev_status_range
           (sample_world [answer 7; answer (-1)])
           (final (bt_vendor_wait_hcidev
                     (sample_world [answer 7; answer (-1)])))
           (-1)).
  reflexivity.
Defined.

(** X15. With the control socket set up and the request written, a poll
    error or a read error met after cycles the watcher ignores makes it
    return -1, as a timeout does. *)
Theorem wait_hcidev_io_error
  (w : world) (fd b : Z) (pre post : list cycle) (c : cycle) :
  0 <= fd -> 0 <= b ->
  Forall wf_cycle (pre ++ c :: post) ->
  script w = answer fd :: answer b :: answer 6
               :: answers_of (pre ++ c :: post) ->
  forallb (ignored (hci_interface w)) pre = true ->
  c = PollError \/ c = ReadError ->
  returned (bt_vendor_wait_hcidev w) = Some (-1).
Proof.
  intros Hfd Hb Hwf Hs Hp Hc.
  pose proof (bt_vendor_wait_hcidev_refines w fd b _ Hfd Hb Hwf Hs) as R.
  rewrite wait_for_index_skip in R by exact Hp.
  destruct Hc as [-> | ->]; exact R.
Qed.

Lemma wait_hcidev_io_error_witness :
  returned
    (bt_vendor_wait_hcidev
       (sample_world
          (answer 7 :: answer 0 :: answer 6
             :: answers_of ([Event (IndexAdded 3)] ++ ReadError :: []))))
  = Some (-1).
Proof.
  apply (wait_hcidev_io_error
           (sample_world
              (answer 7 :: answer 0 :: answer 6
                 :: answers_of ([Event (IndexAdded 3)] ++ ReadError :: [])))
           7 0 [Event (IndexAdded 3)] [] ReadError).
  - lia.
  - lia.
  - repeat constructor; vm_compute; intuition congruence.
  - reflexivity.
  - reflexivity.
  - right. reflexivity.
Defined.

(** ** The bounds of the index scan *)

Lemma load_u16_inside (ev : list Z) (off : nat) :
  (S off < length ev)%nat -> exists v, load_u16 ev off = Some v.
Proof.
  intros H. unfold load_u16.
  destruct (lookup_lt_is_Some_2 ev off ltac:(lia)) as [lo ->].
  destruct (lookup_lt_is_Some_2 ev (S off) H) as [hi ->].
  eauto.
Qed.

Lemma scan_index_inside (ev : list Z) (target : Z) (n : nat) :
  forall i : nat,
    (off_cc_index (i + n) <= length ev)%nat ->
    exists b, scan_index n i ev target = Some b.
Proof.
  induction n as [|n IH]; intros i H; cbn [scan_index]; [eauto|].
  destruct (load_u16_inside ev (off_cc_index i)) as [v ->];
    [unfold off_cc_index, off_data in *; lia|].
  destruct (v =? target); [eauto|].
  apply IH. unfold off_cc_index, off_data in *.
  replace (S i + n)%nat with (i + S n)%nat by lia. exact H.
Qed.

Lemma scan_index_split (ev : list Z) (target : Z) (a b : nat) :
  forall i : nat,
    scan_index (a + b) i ev target
    = match scan_index a i ev target with
      | Some false => scan_index b (i + a) ev target
      | r => r
      end.
Proof.
  induction a as [|a IH]; intros i; cbn [scan_index Nat.add].
  - now rewrite Nat.add_0_r.
  - destruct (load_u16 ev (off_cc_index i)) as [v|]; [|reflexivity].
    destruct (v =? target); [reflexivity|].
    rewrite IH. now replace (S i + a)%nat with (i + S a)%nat by lia.
Qed.

Lemma scan_index_outside (ev : list Z) (target : Z) (n i : nat) :
  (length ev <= S (off_cc_index i))%nat ->
  scan_index (S n) i ev target = None.
Proof.
  intros H. cbn [scan_index]. unfold load_u16.
  rewrite (lookup_ge_None_2 ev (S (off_cc_index i))) by exact H.
  now destruct (ev !! off_cc_index i).
Qed.

Ltac in_buffer :=
  unfold off_opcode, off_index, off_cc_opcode, off_cc_status,
    off_cc_num_intf, off_cc_index, off_data in *;
  lia.

(** X16. On a full-size buffer the examination of an event reads
    outside [ev] in exactly one situation: the event is a
    command-complete of the index-list command with status 0 whose
    [num_intf] is 510 or more, and the target is not among the first 509
    entries.  Up to 509 entries the scan stays inside the buffer. *)
Theorem examine_faults_iff (ev : list Z) (target : Z) :
  length ev = sizeof_mgmt_pkt ->
  (examine ev target = None <->
   load_u16 ev off_opcode = Some MGMT_EV_COMMAND_COMP /\
   load_u16 ev off_cc_opcode = Some MGMT_OP_INDEX_LIST /\
   load_u8 ev off_cc_status = Some 0 /\
   (exists n, load_u16 ev off_cc_num_intf = Some n /\ 510 <= n) /\
   scan_index 509 0 ev target = Some false).
Proof.
  intros Hlen. change sizeof_mgmt_pkt with 1030%nat in Hlen.
  destruct (load_u16_inside ev off_opcode) as [opcode Ho];
    [in_buffer|].
  destruct (load_u16_inside ev off_index) as [index Hi]; [in_buffer|].
  destruct (load_u16_inside ev off_cc_opcode) as [cc Hc]; [in_buffer|].
  destruct (load_u16_inside ev off_cc_num_intf) as [n Hn]; [in_buffer|].
  destruct (lookup_lt_is_Some_2 ev off_cc_status ltac:(in_buffer))
    as [st Hs].
  fold (load_u8 ev off_cc_status) in Hs.
  destruct (scan_index_inside ev target 509 0) as [b509 H509];
    [in_buffer|].
  assert (Scan : scan_index (Z.to_nat n) 0 ev target = None
                 <-> 510 <= n /\ b509 = false).
  { destruct (Z.le_gt_cases 510 n) as [Hbig|Hsmall].
    - replace (Z.to_nat n) with (509 + S (Z.to_nat n - 510))%nat by lia.
      rewrite scan_index_split, H509. cbn [Nat.add].
      rewrite scan_index_outside by in_buffer.
      destruct b509; split; intros; intuition congruence.
    - destruct (scan_index_inside ev target (Z.to_nat n) 0) as [b ->];
        [in_buffer|].
      split; [discriminate|lia]. }
  unfold examine. rewrite Ho, Hi, Hc, Hs, Hn, H509.
  destruct ((opcode =? MGMT_EV_INDEX_ADDED) && (index =? target)) eqn:T1.
  { split; [discriminate|]. intros ([= ->] & _).
    discriminate T1. }
  destruct (Z.eqb_spec opcode MGMT_EV_COMMAND_COMP) as [->|No];
    [|split; [discriminate|intros ([= ?] & _); contradiction]].
  destruct (Z.eqb_spec cc MGMT_OP_INDEX_LIST) as [->|Nc]; cbn [negb orb];
    [|split; [discriminate|intros (_ & [= ?] & _); contradiction]].
  destruct (Z.eqb_spec st 0) as [->|Ns]; cbn [negb];
    [|split; [discriminate|intros (_ & _ & [= ?] & _); contradiction]].
  destruct (Z.ltb_spec 0 n) as [Hpos|Hneg];
    [|split; [discriminate|intros (_ & _ & _ & (m & [= <-] & ?) & _); lia]].
  destruct (scan_index (Z.to_nat n) 0 ev target) as [[|]|] eqn:Es.
  - split; [discriminate|]. intros (_ & _ & _ & _ & [= ->]).
    destruct Scan as [_ S2]. 
    assert (Some true = None :> option bool) by (apply S2; split; [|reflexivity];
      destruct (Z.le_gt_cases 510 n); [assumption|];
      exfalso;
      destruct (scan_index_inside ev target (Z.to_nat n) 0) as [b Hb];
      [in_buffer|];
      pose proof (scan_index_split ev target (Z.to_nat n)
                    (509 - Z.to_nat n) 0) as Sp;
      replace (Z.to_nat n + (509 - Z.to_nat n))%nat with 509%nat in Sp
        by lia;
      rewrite H509, Es in Sp; discriminate Sp).
    discriminate.
  - split; [discriminate|]. intros (_ & _ & _ & (m & [= <-] & Hm) & [= ->]).
    destruct Scan as [_ S2]. discriminate (S2 (conj Hm eq_refl)).
  - destruct Scan as [S1 _]. destruct (S1 eq_refl) as [Hbig ->].
    split; [|reflexivity]. intros _. repeat split; eauto.
Qed.

Lemma examine_faults_iff_witness :
  examine ([1; 0; 0; 0; 5; 0; 3; 0; 0; 255; 255] ++ repeat 0 1019%nat) 1
  = None <->
  load_u16 ([1; 0; 0; 0; 5; 0; 3; 0; 0; 255; 255] ++ repeat 0 1019%nat)
    off_opcode = Some MGMT_EV_COMMAND_COMP /\
  load_u16 ([1; 0; 0; 0; 5; 0; 3; 0; 0; 255; 255] ++ repeat 0 1019%nat)
    off_cc_opcode = Some MGMT_OP_INDEX_LIST /\
  load_u8 ([1; 0; 0; 0; 5; 0; 3; 0; 0; 255; 255] ++ repeat 0 1019%nat)
    off_cc_status = Some 0 /\
  (exists n,
     load_u16 ([1; 0; 0; 0; 5; 0; 3; 0; 0; 255; 255] ++ repeat 0 1019%nat)
       off_cc_num_intf = Some n /\ 510 <= n) /\
  scan_index 509 0
    ([1; 0; 0; 0; 5; 0; 3; 0; 0; 255; 255] ++ repeat 0 1019%nat) 1
  = Some false.
Proof.
  apply (examine_faults_iff
           ([1; 0; 0; 0; 5; 0; 3; 0; 0; 255; 255] ++ repeat 0 1019%nat) 1).
  vm_compute. reflexivity.
Defined.

Lemma scan_index_agree (ev1 ev2 : list Z) (target : Z) (n : nat) :
  (forall k : nat, (off_cc_index 0 <= k)%nat -> ev1 !! k = ev2 !! k) ->
  forall i : nat,
    scan_index n i ev1 target = scan_index n i ev2 target.
Proof.
  intros H. induction n as [|n IH]; intros i; cbn [scan_index];
    [reflexivity|].
  unfold load_u16. rewrite !H by in_buffer. now rewrite IH.
Qed.

(** X17. The length field of the packet header is never consulted:
    whatever its two bytes hold, the examination of the event comes out
    the same. *)
Theorem examine_ignores_len (ev : list Z) (lo hi target : Z) :
  examine (<[S off_len := hi]> (<[off_len := lo]> ev)) target
  = examine ev target.
Proof.
  assert (H : forall k : nat,
             k <> off_len -> k <> S off_len ->
             (<[S off_len := hi]> (<[off_len := lo]> ev)) !! k = ev !! k).
  { intros k H1 H2. now rewrite !list_lookup_insert_ne by congruence. }
  unfold examine, load_u16, load_u8.
  rewrite !H by (unfold off_opcode, off_index, off_cc_opcode,
                   off_cc_status, off_cc_num_intf, off_data, off_len; lia).
  repeat match goal with
         | |- context [match ?x with _ => _ end] =>
             lazymatch x with
             | scan_index _ _ _ _ => fail
             | _ => destruct x
             end
         end; try reflexivity;
    (rewrite (scan_index_agree _ ev);
     [reflexivity|intros k Hk; apply H; unfold off_len; in_buffer]).
Qed.

(** ** Initialisation *)

Lemma bt_vendor_init_done
  (long_bits : Z) (props : properties) (local_bdaddr : list Z) (w : world) :
  (6 <= length local_bdaddr)%nat ->
  exists w',
    bt_vendor_init long_bits props true local_bdaddr w
    = Done (0, Some (take 6 local_bdaddr)) w' /\
    script w' = script w /\
    trace w' = trace w /\
    bt_vendor_fd w' = bt_vendor_fd w /\
    bt_vendor_callbacks w' = true.
Proof.
  intros H. unfold bt_vendor_init. cbn [negb].
  unfold modify, mbind', mreturn.
  apply Nat.ltb_ge in H. rewrite H.
  eexists. split; [reflexivity|]. cbn. repeat split.
Qed.

(** X18. Initialisation fails only on a null callback table: it then
    returns -1 and changes nothing.  Otherwise, given six readable
    address bytes, it returns 0 whatever the properties hold, registers
    the callbacks and stores the address; in both cases it makes no
    call to the kernel and leaves the recorded descriptor alone. *)
Theorem bt_vendor_init_status
  (long_bits : Z) (props : properties) (p_cb : bool)
  (local_bdaddr : list Z) (w : world) :
  (6 <= length local_bdaddr)%nat ->
  exists w',
    bt_vendor_init long_bits props p_cb local_bdaddr w
    = Done (if p_cb then 0 else -1,
            if p_cb then Some (take 6 local_bdaddr) else None) w' /\
    script w' = script w /\
    trace w' = trace w /\
    bt_vendor_fd w' = bt_vendor_fd w /\
    bt_vendor_callbacks w' = p_cb || bt_vendor_callbacks w /\
    (p_cb = false -> w' = w).
Proof.
  intros H. destruct p_cb.
  - destruct (bt_vendor_init_done long_bits props local_bdaddr w H)
      as (w' & E & Hs & Ht & Hf & Hc).
    exists w'. repeat split; auto. discriminate.
  - exists w. repeat split.
Qed.

Lemma bt_vendor_init_status_witness :
  exists w',
    bt_vendor_init 64 (fun _ => None) true [1; 2; 3; 4; 5; 6; 7]
      (World false 5 9 9 9 (fun _ => 0) [answer 1] [])
    = Done (0, Some (take 6 [1; 2; 3; 4; 5; 6; 7])) w' /\
    script w' = [answer 1] /\
    trace w' = [] /\
    bt_vendor_fd w' = 5 /\
    bt_vendor_callbacks w' = true || false /\
    (true = false -> w' = World false 5 9 9 9 (fun _ => 0) [answer 1] []).
Proof.
  apply (bt_vendor_init_status 64 (fun _ => None) true [1; 2; 3; 4; 5; 6; 7]
           (World false 5 9 9 9 (fun _ => 0) [answer 1] [])).
  simpl. lia.
Defined.

(** The variables a successful initialisation leaves. *)
Lemma bt_vendor_init_final
  (long_bits : Z) (props : properties) (local_bdaddr : list Z) (w : world) :
  (6 <= length local_bdaddr)%nat ->
  let w' := final (bt_vendor_init long_bits props true local_bdaddr w) in
  hci_interface w'
  = parse_interface long_bits
      (snd (property_get props "bluetooth.interface" (Some "0"%string))) /\
  rfkill_en w'
  = atoi long_bits
      (snd (property_get props "bluetooth.rfkill" (Some "0"%string))) /\
  bt_hwcfg_en w'
  = (if 0 <? fst (property_get props "vendor.bluetooth.hwcfg" None)
     then 1 else 0).
Proof.
  intros H. unfold bt_vendor_init. cbn [negb].
  unfold modify, mbind', mreturn.
  apply Nat.ltb_ge in H. rewrite H. repeat split.
Qed.

Lemma digits_of_uint_acc (d : Decimal.uint) :
  forall (p : positive) (rest : string),
    ends_number rest ->
    digits (Z.pos p) (DecimalString.NilEmpty.string_of_uint d ++ rest)
    = Z.pos (Pos.of_uint_acc d p).
Proof.
  induction d; intros p rest Hr;
    cbn [DecimalString.NilEmpty.string_of_uint String.append digits
         Pos.of_uint_acc];
    try (change (digit _) with (Some 0) || change (digit _) with (Some 1)
         || change (digit _) with (Some 2) || change (digit _) with (Some 3)
         || change (digit _) with (Some 4) || change (digit _) with (Some 5)
         || change (digit _) with (Some 6) || change (digit _) with (Some 7)
         || change (digit _) with (Some 8) || change (digit _) with (Some 9));
    cbv iota;
    try (match goal with
         | |- digits ?a _ = Z.pos (Pos.of_uint_acc _ ?q) =>
             replace a with (Z.pos q) by lia
         end; now apply IHd).
  destruct rest as [|c rest]; [reflexivity|].
  cbn in *. now rewrite Hr.
Qed.

Lemma digits_of_uint (d : Decimal.uint) (rest : string) :
  ends_number rest ->
  digits 0 (DecimalString.NilEmpty.string_of_uint d ++ rest)
  = Z.of_N (N.of_uint d).
Proof.
  intros Hr. induction d;
    cbn [DecimalString.NilEmpty.string_of_uint String.append digits
         N.of_uint Pos.of_uint];
    try (change (digit _) with (Some 0) || change (digit _) with (Some 1)
         || change (digit _) with (Some 2) || change (digit _) with (Some 3)
         || change (digit _) with (Some 4) || change (digit _) with (Some 5)
         || change (digit _) with (Some 6) || change (digit _) with (Some 7)
         || change (digit _) with (Some 8) || change (digit _) with (Some 9));
    cbv iota;
    try (change (10 * 0 + 0) with 0; exact IHd);
    try (match goal with
         | |- digits ?a _ = Z.of_N (N.pos (Pos.of_uint_acc _ ?q)) =>
             change a with (Z.pos q)
         end; now apply digits_of_uint_acc).
  destruct rest as [|c rest]; [reflexivity|].
  cbn in *. now rewrite Hr.
Qed.

Lemma decimal_head (n : N) (rest : string) :
  exists c s,
    (decimal n ++ rest)%string = String c s /\
    is_space c = false /\
    c <> "-"%char /\ c <> "+"%char /\ c <> "h"%char.
Proof.
  unfold decimal.
  destruct (N.to_uint n) eqn:E;
    [exfalso; destruct n; [discriminate E|];
     exact (DecimalPos.Unsigned.to_uint_nonnil _ E)|..];
    cbn [DecimalString.NilEmpty.string_of_uint String.append];
    eexists _, _; (split; [reflexivity|]);
    (split; [reflexivity|]); repeat split; discriminate.
Qed.

(** [strtol] reads back a decimal numeral, whatever non-digit text
    follows it: the number when it fits a [long], else the largest
    [long] with [errno] set. *)
Lemma strtol_decimal (long_bits : Z) (n : N) (rest : string) :
  ends_number rest ->
  strtol long_bits (decimal n ++ rest)
  = if 2 ^ (long_bits - 1) - 1 <? Z.of_N n
    then (2 ^ (long_bits - 1) - 1, true)
    else (Z.of_N n, false).
Proof.
  intros Hr.
  assert (V : digits 0 (decimal n ++ rest) = Z.of_N n).
  { unfold decimal. rewrite digits_of_uint by exact Hr.
    now rewrite DecimalN.Unsigned.of_to. }
  destruct (decimal_head n rest) as (c & s & E & Hsp & Hm & Hp & _).
  unfold strtol. rewrite E. cbn [skip_space]. rewrite Hsp.
  assert (M : match String c s with
              | String "-" s' => (true, s')
              | String "+" s' => (false, s')
              | _ => (false, String c s)
              end = (false, String c s)).
  { destruct c as [[] [] [] [] [] [] [] []]; try reflexivity;
      exfalso; (apply Hm; reflexivity) || (apply Hp; reflexivity). }
  rewrite M. rewrite <- E, V.
  destruct (Z.ltb_spec (2 ^ (long_bits - 1) - 1) (Z.of_N n));
    [reflexivity|].
  destruct (Z.ltb_spec (Z.of_N n) (- 2 ^ (long_bits - 1))); [|reflexivity].
  pose proof (N2Z.is_nonneg n).
  pose proof (Z.pow_nonneg 2 (long_bits - 1) ltac:(lia)). lia.
Qed.

Lemma parse_interface_decimal (long_bits : Z) (n : N) (rest : string) :
  ends_number rest ->
  parse_interface long_bits (decimal n ++ rest)
  = if 2 ^ (long_bits - 1) - 1 <? Z.of_N n then 0
    else int_of_long (Z.of_N n).
Proof.
  intros Hr. unfold parse_interface.
  destruct (decimal_head n rest) as (c & s & E & _ & _ & _ & Hh).
  assert (M : match String c s with
              | String "h" (String "c" (String "i" number)) =>
                  strtol long_bits number
              | _ => strtol long_bits (String c s)
              end = strtol long_bits (String c s)).
  { destruct c as [[] [] [] [] [] [] [] []]; try reflexivity.
    exfalso. apply Hh. reflexivity. }
  rewrite E, M, <- E, strtol_decimal by exact Hr.
  now destruct (_ <? _).
Qed.

Lemma parse_interface_hci (long_bits : Z) (n : N) (rest : string) :
  ends_number rest ->
  parse_interface long_bits ("hci" ++ decimal n ++ rest)
  = parse_interface long_bits (decimal n ++ rest).
Proof.
  intros Hr. rewrite parse_interface_decimal by exact Hr.
  unfold parse_interface. cbn [String.append].
  rewrite strtol_decimal by exact Hr. now destruct (_ <? _).
Qed.

Lemma int_of_long_small (v : Z) :
  - 2 ^ 31 <= v < 2 ^ 31 -> int_of_long v = v.
Proof.
  unfold int_of_long. change (2 ^ 31) with 2147483648.
  change (2 ^ 32) with 4294967296. intros H.
  rewrite Z.mod_small; lia.
Qed.

Lemma long_holds_int (long_bits : Z) :
  32 <= long_bits -> 2 ^ 31 <= 2 ^ (long_bits - 1).
Proof. intros H. apply Z.pow_le_mono_r; lia. Qed.

Lemma property_get_set (props : properties) (key : string)
  (default_value : option string) (c : ascii) (s : string) :
  props key = Some (String c s) ->
  property_get props key default_value
  = (Z.of_nat (String.length (String c s)), String c s).
Proof. intros H. unfold property_get. now rewrite H. Qed.

Lemma property_get_unset (props : properties) (key : string)
  (default_value : option string) :
  unset props key ->
  property_get props key default_value
  = match default_value with
    | Some d => (Z.of_nat (String.length d), d)
    | None => (0, EmptyString)
    end.
Proof.
  intros [H|H]; unfold property_get; rewrite H; now destruct default_value.
Qed.

(** X19. The interface selector reads back a decimal interface number:
    when the property [bluetooth.interface] holds the numeral of an
    [n] below 2^31, bare or behind the prefix "hci", and followed by
    nothing or by text that does not start with a digit, the
    initialisation selects interface [n]. *)
Theorem bt_vendor_init_interface
  (long_bits : Z) (props : properties) (n : N) (rest : string)
  (local_bdaddr : list Z) (w : world) :
  32 <= long_bits ->
  Z.of_N n < 2 ^ 31 ->
  ends_number rest ->
  (6 <= length local_bdaddr)%nat ->
  props "bluetooth.interface"%string = Some (decimal n ++ rest)%string \/
  props "bluetooth.interface"%string
  = Some ("hci" ++ decimal n ++ rest)%string ->
  hci_interface
    (final (bt_vendor_init long_bits props true local_bdaddr w))
  = Z.of_N n.
Proof.
  intros Hl Hn Hr Hb Hp.
  destruct (bt_vendor_init_final long_bits props local_bdaddr w Hb)
    as (-> & _).
  assert (E : parse_interface long_bits
                (snd (property_get props "bluetooth.interface"
                        (Some "0"%string)))
              = parse_interface long_bits (decimal n ++ rest)).
  { destruct Hp as [Hp|Hp].
    - destruct (decimal_head n rest) as (c & s & E & _).
      rewrite E in Hp. rewrite (property_get_set _ _ _ _ _ Hp).
      now rewrite E.
    - cbn [String.append] in Hp.
      rewrite (property_get_set _ _ _ _ _ Hp).
      apply (parse_interface_hci long_bits n rest Hr). }
  rewrite E, parse_interface_decimal by exact Hr.
  pose proof (long_holds_int long_bits Hl).
  pose proof (N2Z.is_nonneg n).
  destruct (Z.ltb_spec (2 ^ (long_bits - 1) - 1) (Z.of_N n)); [lia|].
  apply int_of_long_small.
  change (2 ^ 31) with 2147483648 in *. lia.
Qed.

Lemma bt_vendor_init_interface_witness :
  hci_interface
    (final (bt_vendor_init 64 sample_props true [1; 2; 3; 4; 5; 6]
              (World false (-1) 0 0 0 (fun _ => 0) [] [])))
  = Z.of_N 3.
Proof.
  apply (bt_vendor_init_interface 64 sample_props 3 ":1"
           [1; 2; 3; 4; 5; 6] (World false (-1) 0 0 0 (fun _ => 0) [] [])).
  - lia.
  - vm_compute. reflexivity.
  - vm_compute. reflexivity.
  - simpl. lia.
  - right. vm_compute. reflexivity.
Defined.

(** X20. A selector beyond the range of [int] is not rejected: a numeral
    too large for a [long] selects interface 0 (the [errno] branch), and
    one that fits a [long] is cut to its low 32 bits. *)
Theorem bt_vendor_init_interface_range
  (long_bits : Z) (props : properties) (n : N) (rest : string)
  (local_bdaddr : list Z) (w : world) :
  ends_number rest ->
  (6 <= length local_bdaddr)%nat ->
  props "bluetooth.interface"%string = Some (decimal n ++ rest)%string \/
  props "bluetooth.interface"%string
  = Some ("hci" ++ decimal n ++ rest)%string ->
  hci_interface
    (final (bt_vendor_init long_bits props true local_bdaddr w))
  = if 2 ^ (long_bits - 1) <=? Z.of_N n then 0
    else int_of_long (Z.of_N n).
Proof.
  intros Hr Hb Hp.
  destruct (bt_vendor_init_final long_bits props local_bdaddr w Hb)
    as (-> & _).
  assert (E : parse_interface long_bits
                (snd (property_get props "bluetooth.interface"
                        (Some "0"%string)))
              = parse_interface long_bits (decimal n ++ rest)).
  { destruct Hp as [Hp|Hp].
    - destruct (decimal_head n rest) as (c & s & E & _).
      rewrite E in Hp. rewrite (property_get_set _ _ _ _ _ Hp).
      now rewrite E.
    - cbn [String.append] in Hp.
      rewrite (property_get_set _ _ _ _ _ Hp).
      apply (parse_interface_hci long_bits n rest Hr). }
  rewrite E, parse_interface_decimal by exact Hr.
  destruct (Z.ltb_spec (2 ^ (long_bits - 1) - 1) (Z.of_N n));
    destruct (Z.leb_spec (2 ^ (long_bits - 1)) (Z.of_N n));
    reflexivity || lia.
Qed.

Lemma bt_vendor_init_interface_range_witness :
  hci_interface
    (final (bt_vendor_init 64
              (fun _ => Some (decimal 4294967297 ++ EmptyString)%string) true
              [1; 2; 3; 4; 5; 6]
              (World false (-1) 0 0 0 (fun _ => 0) [] [])))
  = if 2 ^ (64 - 1) <=? Z.of_N 4294967297 then 0
    else int_of_long (Z.of_N 4294967297).
Proof.
  apply (bt_vendor_init_interface_range 64
           (fun _ => Some (decimal 4294967297 ++ EmptyString)%string) 4294967297 EmptyString
           [1; 2; 3; 4; 5; 6] (World false (-1) 0 0 0 (fun _ => 0) [] [])).
  - exact I.
  - simpl. lia.
  - left. reflexivity.
Defined.

(** X21. With the three properties unset (or empty) the initialisation
    selects interface 0 and leaves both features off. *)
Theorem bt_vendor_init_defaults
  (long_bits : Z) (props : properties) (local_bdaddr : list Z) (w : world) :
  1 <= long_bits ->
  (6 <= length local_bdaddr)%nat ->
  unset props "bluetooth.interface" ->
  unset props "bluetooth.rfkill" ->
  unset props "vendor.bluetooth.hwcfg" ->
  let w' := final (bt_vendor_init long_bits props true local_bdaddr w) in
  hci_interface w' = 0 /\ rfkill_en w' = 0 /\ bt_hwcfg_en w' = 0.
Proof.
  intros Hl Hb Hi Hr Hh.
  destruct (bt_vendor_init_final long_bits props local_bdaddr w Hb)
    as (E1 & E2 & E3).
  cbv zeta. rewrite E1, E2, E3.
  rewrite !property_get_unset by assumption. cbn [fst snd].
  assert (Z0 : strtol long_bits "0" = (0, false)).
  { change "0"%string with (decimal 0 ++ EmptyString)%string.
    rewrite strtol_decimal by exact I.
    pose proof (Z.pow_pos_nonneg 2 (long_bits - 1) ltac:(lia) ltac:(lia)).
    destruct (Z.ltb_spec (2 ^ (long_bits - 1) - 1) (Z.of_N 0));
      [cbn in *; lia|reflexivity]. }
  unfold parse_interface, atoi. rewrite Z0. repeat split.
Qed.

Lemma bt_vendor_init_defaults_witness :
  hci_interface
    (final (bt_vendor_init 32 (fun _ => None) true [1; 2; 3; 4; 5; 6]
              (World false (-1) 7 7 7 (fun _ => 0) [] []))) = 0 /\
  rfkill_en
    (final (bt_vendor_init 32 (fun _ => None) true [1; 2; 3; 4; 5; 6]
              (World false (-1) 7 7 7 (fun _ => 0) [] []))) = 0 /\
  bt_hwcfg_en
    (final (bt_vendor_init 32 (fun _ => None) true [1; 2; 3; 4; 5; 6]
              (World false (-1) 7 7 7 (fun _ => 0) [] []))) = 0.
Proof.
  apply (bt_vendor_init_defaults 32 (fun _ => None) [1; 2; 3; 4; 5; 6]
           (World false (-1) 7 7 7 (fun _ => 0) [] [])).
  - lia.
  - simpl. lia.
  - left. reflexivity.
  - left. reflexivity.
  - left. reflexivity.
Defined.

(** X22. The hook feature is switched on by the presence of the property
    [vendor.bluetooth.hwcfg], not by its value: any non-empty value,
    "stop" or "0" included, enables it, and only an unset or empty
    property leaves it off. *)
Theorem bt_vendor_init_hwcfg_presence
  (long_bits : Z) (props : properties) (local_bdaddr : list Z) (w : world) :
  (6 <= length local_bdaddr)%nat ->
  bt_hwcfg_en (final (bt_vendor_init long_bits props true local_bdaddr w))
  = match props "vendor.bluetooth.hwcfg"%string with
    | Some (String _ _) => 1
    | _ => 0
    end.
Proof.
  intros Hb.
  destruct (bt_vendor_init_final long_bits props local_bdaddr w Hb)
    as (_ & _ & ->).
  unfold property_get.
  destruct (props "vendor.bluetooth.hwcfg"%string) as [[|c s]|];
    reflexivity.
Qed.

Lemma bt_vendor_init_hwcfg_presence_witness :
  bt_hwcfg_en
    (final (bt_vendor_init 64 sample_props true [1; 2; 3; 4; 5; 6]
              (World false (-1) 0 0 0 (fun _ => 0) [] [])))
  = match sample_props "vendor.bluetooth.hwcfg"%string with
    | Some (String _ _) => 1
    | _ => 0
    end.
Proof.
  apply (bt_vendor_init_hwcfg_presence 64 sample_props [1; 2; 3; 4; 5; 6]
           (World false (-1) 0 0 0 (fun _ => 0) [] [])).
  simpl. lia.
Defined.

(** X23. After an initialisation that found the property
    [bluetooth.rfkill] unset, empty or "0", a power-control dispatch is
    a no-op whatever its parameter: status 0, no call, no answer taken
    from the kernel. *)
Theorem init_then_power_ctrl_off
  (long_bits : Z) (props : properties) (local_bdaddr : list Z)
  (p : param) (w : world) :
  1 <= long_bits ->
  (6 <= length local_bdaddr)%nat ->
  unset props "bluetooth.rfkill" \/
  props "bluetooth.rfkill"%string = Some "0"%string ->
  exists w',
    (bt_vendor_init long_bits props true local_bdaddr ;;;
     bt_vendor_op BT_VND_OP_POWER_CTRL p) w = Done (0, p) w' /\
    trace w' = trace w /\ script w' = script w.
Proof.
  intros Hl Hb Hp.
  destruct (bt_vendor_init_done long_bits props local_bdaddr w Hb)
    as (w1 & E & Hs & Ht & _).
  destruct (bt_vendor_init_final long_bits props local_bdaddr w Hb)
    as (_ & Er & _).
  rewrite E in Er. cbn [final] in Er.
  assert (Z0 : strtol long_bits "0" = (0, false)).
  { change "0"%string with (decimal 0 ++ EmptyString)%string.
    rewrite strtol_decimal by exact I.
    pose proof (Z.pow_pos_nonneg 2 (long_bits - 1) ltac:(lia) ltac:(lia)).
    destruct (Z.ltb_spec (2 ^ (long_bits - 1) - 1) (Z.of_N 0));
      [cbn in *; lia|reflexivity]. }
  assert (R0 : rfkill_en w1 = 0).
  { rewrite Er. destruct Hp as [Hp|Hp].
    - rewrite property_get_unset by exact Hp. cbn [snd].
      unfold atoi. now rewrite Z0.
    - rewrite (property_get_set _ _ _ _ _ Hp). cbn [snd].
      unfold atoi. now rewrite Z0. }
  exists w1. split; [|now split].
  unfold mbind' at 1. rewrite E. cbn [bt_vendor_op].
  unfold get, mbind', mreturn. now rewrite R0.
Qed.

Lemma init_then_power_ctrl_off_witness :
  exists w',
    (bt_vendor_init 64 (fun _ => None) true [1; 2; 3; 4; 5; 6] ;;;
     bt_vendor_op BT_VND_OP_POWER_CTRL (IntP BT_VND_PWR_ON))
      (World false (-1) 0 1 1 (fun _ => 0) [answer 7; answer 8] [])
    = Done (0, IntP BT_VND_PWR_ON) w' /\
    trace w' = [] /\ script w' = [answer 7; answer 8].
Proof.
  apply (init_then_power_ctrl_off 64 (fun _ => None) [1; 2; 3; 4; 5; 6]
           (IntP BT_VND_PWR_ON)
           (World false (-1) 0 1 1 (fun _ => 0) [answer 7; answer 8] [])).
  - lia.
  - simpl. lia.
  - left. left. reflexivity.
Defined.

(** ** The target interface and the reach of the watcher *)

Lemma reports_u16 (target : Z) (e : mgmt_event) :
  wf_event e -> reports target e = true -> u16 target.
Proof.
  intros [_ H]. destruct e as [index|index status indices| |];
    cbn [reports]; try discriminate.
  - intros E. apply Z.eqb_eq in E. now subst.
  - destruct H as (_ & _ & Hl).
    intros [_ E]%andb_true_iff. apply existsb_exists in E as (x & Hx & E).
    apply Z.eqb_eq in E. subst x.
    rewrite Forall_forall in Hl. apply Hl. now apply list_elem_of_In.
Qed.

(** X24. An interface number outside 0..65535 (the selector accepts
    negative and large numbers) can never be found: fed well-formed
    cycles, the index watcher does not return success for it. *)
Theorem wait_hcidev_target_out_of_range
  (w : world) (fd b : Z) (cs : list cycle) :
  0 <= fd -> 0 <= b ->
  Forall wf_cycle cs ->
  script w = answer fd :: answer b :: answer 6 :: answers_of cs ->
  ~ (0 <= hci_interface w < 65536) ->
  returned (bt_vendor_wait_hcidev w) <> Some 0.
Proof.
  intros Hfd Hb Hwf Hs Hout Hret.
  pose proof (bt_vendor_wait_hcidev_refines w fd b cs Hfd Hb Hwf Hs) as R.
  destruct (wait_for_index (hci_interface w) cs) as [o|] eqn:E.
  - rewrite Hret in R. destruct o; try discriminate R.
    apply wait_for_index_success in E as (pre & e & post & -> & _ & He).
    apply Forall_app in Hwf as [_ Hwf]. apply Forall_cons in Hwf as [We _].
    exact (Hout (reports_u16 _ _ We He)).
  - destruct (bt_vendor_wait_hcidev w); discriminate.
Qed.

Lemma wait_hcidev_target_out_of_range_witness :
  returned
    (bt_vendor_wait_hcidev
       (World true 5 (-1) 0 0 (fun _ => 0)
          (answer 7 :: answer 0 :: answer 6
             :: answers_of [Event (IndexAdded 65535); PollTimeout]) []))
  <> Some 0.
Proof.
  apply (wait_hcidev_target_out_of_range
           (World true 5 (-1) 0 0 (fun _ => 0)
              (answer 7 :: answer 0 :: answer 6
                 :: answers_of [Event (IndexAdded 65535); PollTimeout]) [])
           7 0 [Event (IndexAdded 65535); PollTimeout]).
  - lia.
  - lia.
  - repeat constructor; vm_compute; intuition congruence.
  - reflexivity.
  - simpl. lia.
Defined.

(** ** The opcodes that only answer *)

Ltac status_zero :=
  let H := fresh in
  intros ? ? ? H; (discriminate H || (injection H as <- _ _; reflexivity)).

(** X25. Every opcode other than power control, firmware config and the
    channel open and close leaves the kernel and the file-scope
    variables alone, whatever its parameter: it takes no answer from the
    script, its only possible call is one callback with the result
    success, and when it returns its status is 0. *)
Theorem dispatcher_kernel_free
  (opcode : bt_vendor_opcode_t) (p : param) (w : world) :
  kernel_free opcode = true ->
  let w' := final (bt_vendor_op opcode p w) in
  script w' = script w /\
  same_globals w w' /\
  (emitted w w' [] \/
   exists cb, emitted w w' [(CCallback cb BT_VND_OP_RESULT_SUCCESS, 0)]) /\
  (forall status p' w2,
     bt_vendor_op opcode p w = Done (status, p') w2 -> status = 0).
Proof.
  intros Hk.
  assert (Stub : forall cb,
             let w' := final ((invoke cb BT_VND_OP_RESULT_SUCCESS ;;;
                               mreturn (0, p)) w) in
             script w' = script w /\ same_globals w w' /\
             (emitted w w' [] \/
              exists cb, emitted w w'
                           [(CCallback cb BT_VND_OP_RESULT_SUCCESS, 0)]) /\
             (forall status p' w2,
                (invoke cb BT_VND_OP_RESULT_SUCCESS ;;; mreturn (0, p)) w
                = Done (status, p') w2 -> status = 0)).
  { intros cb. unfold invoke, action, mbind', mreturn.
    destruct (bt_vendor_callbacks w); cbn.
    - repeat split; [right; now exists cb|status_zero].
    - repeat split; [left; apply emitted_refl|status_zero]. }
  destruct opcode; try discriminate Hk; cbn [bt_vendor_op];
    try apply Stub;
    try (cbn; repeat split; [left; apply emitted_refl|status_zero]).
  destruct p; cbn; repeat split;
    try (left; apply emitted_refl); status_zero.
Qed.

Lemma dispatcher_kernel_free_witness :
  script (final (bt_vendor_op BT_VND_OP_EPILOG NullP scenario_world))
  = script scenario_world /\
  same_globals scenario_world
    (final (bt_vendor_op BT_VND_OP_EPILOG NullP scenario_world)) /\
  (emitted scenario_world
     (final (bt_vendor_op BT_VND_OP_EPILOG NullP scenario_world)) [] \/
   exists cb,
     emitted scenario_world
       (final (bt_vendor_op BT_VND_OP_EPILOG NullP scenario_world))
       [(CCallback cb BT_VND_OP_RESULT_SUCCESS, 0)]) /\
  (forall status p' w2,
     bt_vendor_op BT_VND_OP_EPILOG NullP scenario_world
     = Done (status, p') w2 -> status = 0).
Proof.
  apply (dispatcher_kernel_free BT_VND_OP_EPILOG NullP scenario_world).
  reflexivity.
Defined.

(** ** Success without a report *)

(** C4 does not hold of the code: the watcher can return success
    although no event reported the target.  The target is interface 1.
    The kernel first sends a command-complete of another command
    (sub-opcode 5), 13 bytes, which the watcher skips; its bytes 11 and
    12 happen to be 01 00.  It then sends an 11-byte command-complete of
    the index-list command, status 0, whose [num_intf] is 1 although no
    index follows.  The read overwrites only the first 11 bytes of [ev],
    the scan reads [index[0]] from bytes 11 and 12, left over from the
    first packet, finds 1 there and returns 0, whatever the stack held.
    Had the first packet left 02 00 there, the same second packet would
    leave the watcher polling.  This is the missing bound on [num_intf]
    of C2, met without any read outside [ev]. *)
Theorem success_from_stale_bytes (stack : nat -> Z) :
  returned
    (bt_vendor_wait_hcidev
       (World true 5 1 0 0 stack
          [answer 7; answer 0; answer 6;
           poll_answer 1 POLLIN;
           read_answer [1; 0; 0; 0; 7; 0; 5; 0; 0; 9; 9; 1; 0];
           poll_answer 1 POLLIN;
           read_answer [1; 0; 0; 0; 5; 0; 3; 0; 0; 1; 0]] []))
  = Some 0 /\
  blocked_in
    (bt_vendor_wait_hcidev
       (World true 5 1 0 0 stack
          [answer 7; answer 0; answer 6;
           poll_answer 1 POLLIN;
           read_answer [1; 0; 0; 0; 7; 0; 5; 0; 0; 9; 9; 2; 0];
           poll_answer 1 POLLIN;
           read_answer [1; 0; 0; 0; 5; 0; 3; 0; 0; 1; 0]] []))
  = Some (CPoll 7 POLLIN MGMT_EV_POLL_TIMEOUT).
Proof. split; vm_compute; reflexivity. Qed.
